(** * Budget Tracker CLI: a shallow embedding of [budget_tracker.py]

    The program keeps expenses in one CSV file and offers the commands
    add, list, summary, monthly, categories and delete, either from the
    argument vector or from an interactive prompt.

    The embedding follows the source function by function.  The runtime
    the program stands on (the [str] methods, [int], [float], string
    formatting, [datetime.strptime], the [csv] reader and writer) is
    modelled first, each piece in a module of its own; the program itself
    is a computation in a small monad over the file, the two standard
    streams and the clock.  The properties come last: what the validation
    accepts, what delete, monthly and list do to a table, how the two
    entry points dispatch, and which amounts can end up on file.  A
    second part adds what holds of the program as a whole: what every
    command leaves of the file, how adding, reading back and deleting
    compose, what the reports print and where they stop, and how the two
    modes agree. *)

From Stdlib Require Import ZArith Ascii String List Bool Lia SpecFloat.
From Stdlib Require Import DecimalString DecimalPos Sorted.
From stdpp Require Import base option list strings gmap.

Local Open Scope string_scope.
Local Open Scope Z_scope.
Local Open Scope list_scope.

(** ** Text

    A Python [str] is modelled as a [string] whose characters are the
    code points 0..255.  The character classes below are the Unicode
    ones restricted to that range.  The rule character and the two
    pictographs of the program's banners lie outside the range and are
    written as their UTF-8 bytes; the program only ever prints them. *)

Module Str.

Definition code (c : ascii) : Z := Z.of_N (N_of_ascii c).
Definition chr (z : Z) : ascii := ascii_of_N (Z.to_N z).

(** [str.isspace] on one character: the white space of [strip] and
    [split]. *)
Definition isspace (c : ascii) : bool :=
  let n := code c in
  ((9 <=? n) && (n <=? 13)) || ((28 <=? n) && (n <=? 32))
  || (n =? 133) || (n =? 160).

(** Unicode decimal digits (category Nd): what [\d] matches and what
    [int] and [float] read. *)
Definition isdecimal (c : ascii) : bool :=
  let n := code c in (48 <=? n) && (n <=? 57).

(** [str.isdigit] on one character: the decimal digits and the
    superscripts two, three and one. *)
Definition isdigit_char (c : ascii) : bool :=
  let n := code c in
  isdecimal c || (n =? 178) || (n =? 179) || (n =? 185).

Definition lower_char (c : ascii) : ascii :=
  let n := code c in
  if ((65 <=? n) && (n <=? 90))
     || ((192 <=? n) && (n <=? 222) && negb (n =? 215))
  then chr (n + 32) else c.

Fixpoint all (p : ascii -> bool) (s : string) : bool :=
  match s with
  | EmptyString => true
  | String c r => p c && all p r
  end.

Fixpoint smap (f : ascii -> ascii) (s : string) : string :=
  match s with
  | EmptyString => EmptyString
  | String c r => String (f c) (smap f r)
  end.

Fixpoint srev_onto (s acc : string) : string :=
  match s with
  | EmptyString => acc
  | String c r => srev_onto r (String c acc)
  end.

Definition srev (s : string) : string := srev_onto s EmptyString.

Fixpoint drop_while (p : ascii -> bool) (s : string) : string :=
  match s with
  | EmptyString => EmptyString
  | String c r => if p c then drop_while p r else s
  end.

(** [s.lower()] *)
Definition lower (s : string) : string := smap lower_char s.

(** [s.isdigit()]: false on the empty string. *)
Definition isdigit (s : string) : bool :=
  match s with
  | EmptyString => false
  | _ => all isdigit_char s
  end.

Definition lstrip_by (p : ascii -> bool) (s : string) : string :=
  drop_while p s.
Definition rstrip_by (p : ascii -> bool) (s : string) : string :=
  srev (drop_while p (srev s)).

(** [s.strip()] *)
Definition strip (s : string) : string := rstrip_by isspace (lstrip_by isspace s).

(** [s.startswith(p)] *)
Fixpoint startswith (s p : string) : bool :=
  match p, s with
  | EmptyString, _ => true
  | String a p', String b s' => if Ascii.eqb a b then startswith s' p' else false
  | String _ _, EmptyString => false
  end.

(** [s.split()]: the maximal runs of characters that are not white
    space.  [cur] is the run being read, reversed. *)
Fixpoint split_go (s cur : string) : list string :=
  match s with
  | EmptyString =>
      match cur with EmptyString => [] | _ => [srev cur] end
  | String c r =>
      if isspace c
      then match cur with
           | EmptyString => split_go r EmptyString
           | _ => srev cur :: split_go r EmptyString
           end
      else split_go r (String c cur)
  end.

Definition split (s : string) : list string := split_go s EmptyString.

(** [s[:n]] for a literal [n >= 0] *)
Fixpoint prefix (n : nat) (s : string) : string :=
  match n, s with
  | S n', String c r => String c (prefix n' r)
  | _, _ => EmptyString
  end.

(** [s * n] *)
Fixpoint repeat (s : string) (n : nat) : string :=
  match n with
  | O => EmptyString
  | S n' => s +:+ repeat s n'
  end.

Definition spaces (n : nat) : string := repeat " " n.

(** The format specifications [{s:w}] (pad on the right) and [{s:>w}]
    (pad on the left); a text longer than [w] is kept whole. *)
Definition ljust (w : nat) (s : string) : string :=
  s +:+ spaces (w - String.length s).
Definition rjust (w : nat) (s : string) : string :=
  spaces (w - String.length s) +:+ s.

End Str.

(** ** Integers: [int(s)] and [str(n)] *)

Module PyInt.

(** The white space [int] and [float] skip at both ends: the ASCII
    white space of the C locale, and the two Latin-1 spaces, which the
    runtime turns into blanks before parsing. *)
Definition isspace (c : ascii) : bool :=
  let n := Str.code c in
  ((9 <=? n) && (n <=? 13)) || (n =? 32) || (n =? 133) || (n =? 160).

Definition digit_value (c : ascii) : Z := Str.code c - 48.

(** Decimal digits with single underscores between them.
    [prev] tells whether the previous character was a digit. *)
Fixpoint digits (s : string) (acc : Z) (prev : bool) : option Z :=
  match s with
  | EmptyString => if prev then Some acc else None
  | String c r =>
      if Str.isdecimal c then digits r (10 * acc + digit_value c) true
      else if Ascii.eqb c "_"
           then if prev then digits r acc false else None
           else None
  end.

(** [int(s)]: [None] stands for [ValueError]. *)
Definition int (s : string) : option Z :=
  match Str.rstrip_by isspace (Str.lstrip_by isspace s) with
  | String "-" r => Z.opp <$> digits r 0 false
  | String "+" r => digits r 0 false
  | t => digits t 0 false
  end.

(** [str(n)], also [f"{n}"] *)
Definition str (n : Z) : string := NilZero.string_of_int (Z.to_int n).

End PyInt.

(** ** Floats: [float(s)], [round(x, 2)], [x + y] and [f"{x:.2f}"]

    A Python [float] is an IEEE 754 binary64 number, here a
    [spec_float] with precision 53 and maximal exponent 1024.  Reading
    and printing are correctly rounded (to nearest, ties to even), as
    the runtime's conversions are. *)

Module Float.

Definition prec : Z := 53.
Definition emax : Z := 1024.

Definition zero : spec_float := S754_zero false.
Definition add (x y : spec_float) : spec_float := SFadd prec emax x y.

(** The binary64 number nearest to [p / q], with sign [neg], for
    [p >= 0]. *)
Definition of_ratio (neg : bool) (p : Z) (q : positive) : spec_float :=
  match p with
  | Z0 => S754_zero neg
  | Zpos _ =>
      let '(m, e, l) := SFdiv_core_binary prec emax p 0 (Zpos q) 0 in
      binary_round_aux prec emax neg m e l
  | Zneg _ => S754_nan
  end.

(** The binary64 number nearest to [m * 10 ^ e]. *)
Definition of_decimal (neg : bool) (m e : Z) : spec_float :=
  if 0 <=? e then of_ratio neg (m * 10 ^ e) 1
  else of_ratio neg m (Z.to_pos (10 ^ (- e))).

(** *** Reading *)

(** Underscores may stand between two digits only; they are removed
    before the number is read.  [prev] is the previous character, the
    null character at the start. *)
Fixpoint strip_underscores (s : string) (prev : ascii) : option string :=
  match s with
  | EmptyString => if Ascii.eqb prev "_" then None else Some EmptyString
  | String c r =>
      if Ascii.eqb c "_"
      then if Str.isdecimal prev then strip_underscores r c else None
      else if Ascii.eqb prev "_" && negb (Str.isdecimal c) then None
           else String c <$> strip_underscores r c
  end.

(** A run of decimal digits: its value, its length and the rest. *)
Fixpoint digit_run (s : string) (acc : Z) (n : Z) : Z * Z * string :=
  match s with
  | String c r =>
      if Str.isdecimal c then digit_run r (10 * acc + PyInt.digit_value c) (n + 1)
      else (acc, n, s)
  | EmptyString => (acc, n, s)
  end.

(** The exponent part, if one with at least one digit follows;
    otherwise nothing is consumed. *)
Definition exponent (s : string) : Z * string :=
  match s with
  | String c r =>
      if Ascii.eqb c "e" || Ascii.eqb c "E" then
        let '(neg, r') :=
          match r with
          | String "-" t => (true, t)
          | String "+" t => (false, t)
          | _ => (false, r)
          end in
        let '(v, n, rest) := digit_run r' 0 0 in
        if n =? 0 then (0, s) else ((if neg then - v else v), rest)
      else (0, s)
  | EmptyString => (0, s)
  end.

(** An unsigned decimal literal that fills the whole text. *)
Definition decimal_literal (neg : bool) (s : string) : option spec_float :=
  let '(ip, ni, r1) := digit_run s 0 0 in
  let '(m, nf, r2) :=
    match r1 with
    | String "." t => let '(m, nf, r2) := digit_run t ip 0 in (m, nf, r2)
    | _ => (ip, 0, r1)
    end in
  if ni + nf =? 0 then None
  else
    let '(e, r3) := exponent r2 in
    match r3 with
    | EmptyString => Some (of_decimal neg m (e - nf))
    | _ => None
    end.

Definition inf_or_nan (neg : bool) (s : string) : option spec_float :=
  let t := Str.lower s in
  if String.eqb t "inf" || String.eqb t "infinity" then Some (S754_infinity neg)
  else if String.eqb t "nan" then Some S754_nan
  else None.

Definition signed_literal (s : string) : option spec_float :=
  let '(neg, r) :=
    match s with
    | String "-" t => (true, t)
    | String "+" t => (false, t)
    | _ => (false, s)
    end in
  match decimal_literal neg r with
  | Some x => Some x
  | None => inf_or_nan neg r
  end.

(** [float(s)]: [None] stands for [ValueError]. *)
Definition float (s : string) : option spec_float :=
  t ← strip_underscores
        (Str.rstrip_by PyInt.isspace (Str.lstrip_by PyInt.isspace s)) Ascii.zero;
  signed_literal t.

(** *** Printing with two decimals *)

(** [|x| * 100] rounded to an integer, ties to even, for the finite
    number [m * 2 ^ e]. *)
Definition cents (m : positive) (e : Z) : Z :=
  if 0 <=? e then Zpos m * 100 * 2 ^ e
  else
    let den := 2 ^ (- e) in
    let num := Zpos m * 100 in
    let q := num / den in
    match 2 * (num mod den) ?= den with
    | Lt => q
    | Gt => q + 1
    | Eq => if Z.even q then q else q + 1
    end.

Definition two_digits (n : Z) : string :=
  String (Str.chr (48 + n / 10)) (String (Str.chr (48 + n mod 10)) EmptyString).

Definition fixed2 (neg : bool) (c : Z) : string :=
  (if neg then "-" else "") +:+ PyInt.str (c / 100) +:+ "." +:+ two_digits (c mod 100).

(** [f"{x:.2f}"] *)
Definition fmt2 (x : spec_float) : string :=
  match x with
  | S754_zero s => fixed2 s 0
  | S754_finite s m e => fixed2 s (cents m e)
  | S754_infinity s => if s then "-inf" else "inf"
  | S754_nan => "nan"
  end.

(** [round(x, 2)]: the decimal rounding of [x] read back as a
    float; infinities and NaN round to themselves. *)
Definition round2 (x : spec_float) : spec_float :=
  match x with
  | S754_finite s m e => of_decimal s (cents m e) (-2)
  | _ => x
  end.

End Float.

(** ** Dates: [datetime.strptime(s, "%Y-%m-%d")]

    The runtime turns the format into the regular expression
    [(?P<Y>\d\d\d\d)-(?P<m>1[0-2]|0[1-9]|[1-9])-(?P<d>3[0-1]|[1-2]\d|0[1-9]|[1-9]| [1-9])],
    matches it at the start of the text, refuses text left over after
    the match, converts the three groups with [int] and builds a date,
    which checks the year, the month and the day of the month.  Every
    failure is a [ValueError]. *)

Module Datetime.

(** A matcher gives, in the order the backtracking engine tries them,
    the ways to match at the start of a text: the matched part and
    the rest. *)
Definition matcher : Type := string -> list (string * string).

Definition one (p : ascii -> bool) : matcher := fun s =>
  match s with
  | String c r => if p c then [(String c EmptyString, r)] else []
  | EmptyString => []
  end.

Definition lit (c : ascii) : matcher := one (Ascii.eqb c).

Definition range (lo hi : ascii) : matcher :=
  one (fun c => (Str.code lo <=? Str.code c) && (Str.code c <=? Str.code hi)).

Definition digit : matcher := one Str.isdecimal.

Definition seq (f g : matcher) : matcher := fun s =>
  '(a, r) ← f s; '(b, r') ← g r; [(a +:+ b, r')].

Definition alt (fs : list matcher) : matcher := fun s =>
  f ← fs; f s.

Definition re_Y : matcher := seq digit (seq digit (seq digit digit)).

Definition re_m : matcher :=
  alt [ seq (lit "1") (range "0" "2"); seq (lit "0") (range "1" "9"); range "1" "9" ].

Definition re_d : matcher :=
  alt [ seq (lit "3") (range "0" "1"); seq (range "1" "2") digit;
        seq (lit "0") (range "1" "9"); range "1" "9";
        seq (lit " ") (range "1" "9") ].

(** The groups Y, m and d of every match, and the text after it. *)
Definition re_Ymd (s : string) : list (string * string * string * string) :=
  '(y, r1) ← re_Y s; '(_, r2) ← lit "-" r1;
  '(m, r3) ← re_m r2; '(_, r4) ← lit "-" r3;
  '(d, r5) ← re_d r4; [(y, m, d, r5)].

Definition is_leap (y : Z) : bool :=
  (y mod 4 =? 0) && (negb (y mod 100 =? 0) || (y mod 400 =? 0)).

Definition days_in_month (y m : Z) : Z :=
  if m =? 2 then (if is_leap y then 29 else 28)
  else if (m =? 4) || (m =? 6) || (m =? 9) || (m =? 11) then 30
  else 31.

(** [date(y, m, d)] succeeds. *)
Definition date_ok (y m d : Z) : bool :=
  (1 <=? y) && (y <=? 9999) && (1 <=? m) && (m <=? 12)
  && (1 <=? d) && (d <=? days_in_month y m).

(** [datetime.strptime(s, "%Y-%m-%d")]: the year, month and day, or
    [None] for [ValueError]. *)
Definition strptime (s : string) : option (Z * Z * Z) :=
  match re_Ymd s with
  | [] => None
  | (ys, ms, ds, rest) :: _ =>
      match rest with
      | EmptyString =>
          y ← PyInt.int ys; m ← PyInt.int ms; d ← PyInt.int ds;
          if date_ok y m d then Some (y, m, d) else None
      | _ => None
      end
  end.

End Datetime.

(** ** The CSV file

    [DATA_FILE] is modelled by the rows the [csv] reader yields from its
    text, the header row first; a row is the list of its fields.  The
    text itself is not modelled: the writer's quoting and the reader's
    unquoting are taken to be inverse to each other, so that a row
    written is the row read. *)

Module Csv.

(** What a [DictReader] row holds under a field name: the field, or
    [None] where the row is shorter than the header. *)
Inductive value : Type :=
| PyStr (s : string)
| PyNone.

(** [dict(zip(fieldnames, row))], then [None] under the field names the
    row does not reach.  The fields beyond the header, which the reader
    stores under the key [None], are never looked up by the program and
    are dropped. *)
Definition make_dict (fieldnames row : list string) : gmap string value :=
  let d := foldl (fun d kv => <[kv.1 := PyStr kv.2]> d) ∅ (zip fieldnames row) in
  foldl (fun d k => <[k := PyNone]> d) d (drop (length row) fieldnames).

Definition nonempty (r : list string) : bool :=
  match r with [] => false | _ => true end.

(** [list(csv.DictReader(f))]: the first row gives the field names;
    empty rows after it are skipped. *)
Definition DictReader (rows : list (list string)) : list (gmap string value) :=
  match rows with
  | [] => []
  | fieldnames :: rest => make_dict fieldnames <$> List.filter nonempty rest
  end.

(** How [writerow] writes a value, and how an f-string without a format
    specification shows it. *)
Definition field_text (v : value) : string :=
  match v with PyStr s => s | PyNone => "" end.
Definition to_str (v : value) : string :=
  match v with PyStr s => s | PyNone => "None" end.

End Csv.

Export Csv(value, PyStr, PyNone).

(** ** The program's world and its computations *)

Record world : Type := World {
  file : option (list (list string));  (* [DATA_FILE]: absent, or its rows *)
  stdout : string;                     (* everything printed so far *)
  stdin : list string;                 (* the lines still to be read *)
  today : string                       (* the clock's date as [%Y-%m-%d] *)
}.

Definition set_file (f : option (list (list string))) (w : world) : world :=
  World f (stdout w) (stdin w) (today w).
Definition set_stdout (o : string) (w : world) : world :=
  World (file w) o (stdin w) (today w).
Definition set_stdin (i : list string) (w : world) : world :=
  World (file w) (stdout w) i (today w).

Inductive exn : Type :=
| ValueError | TypeError | KeyError | IndexError | AttributeError | EOFError.

(** How a computation ends: with a value, by [sys.exit(code)], or by an
    exception nothing catches (the interpreter then prints a traceback). *)
Inductive outcome (A : Type) : Type :=
| Return (a : A)
| SysExit (code : Z)
| Raised (e : exn).
Arguments Return {A} a.
Arguments SysExit {A} code.
Arguments Raised {A} e.

Definition M (A : Type) : Type := world -> outcome A * world.

#[global] Instance M_ret : MRet M := fun A a w => (Return a, w).
#[global] Instance M_bind : MBind M := fun A B k m w =>
  match m w with
  | (Return a, w') => k a w'
  | (SysExit c, w') => (SysExit c, w')
  | (Raised e, w') => (Raised e, w')
  end.

Definition sys_exit {A} (code : Z) : M A := fun w => (SysExit code, w).
Definition raise {A} (e : exn) : M A := fun w => (Raised e, w).

Definition newline : string := String (Str.chr 10) EmptyString.

(** [print(s)] *)
Definition print (s : string) : M unit := fun w =>
  (Return tt, set_stdout (stdout w +:+ s +:+ newline) w).

(** [input(prompt)]: shows the prompt, takes the next line; [EOFError]
    when there is none. *)
Definition input (prompt : string) : M string := fun w =>
  let w' := set_stdout (stdout w +:+ prompt) w in
  match stdin w with
  | [] => (Raised EOFError, w')
  | l :: ls => (Return l, set_stdin ls w')
  end.

(** [for x in xs: body(x)] *)
Fixpoint for_ {A} (xs : list A) (body : A -> M unit) : M unit :=
  match xs with
  | [] => mret tt
  | x :: xs' => body x ;; for_ xs' body
  end.

(** A loop that carries a local variable. *)
Fixpoint for_acc {A S} (xs : list A) (s : S) (body : S -> A -> M S) : M S :=
  match xs with
  | [] => mret s
  | x :: xs' => s' ← body s x; for_acc xs' s' body
  end.

(** [r[k]] *)
Definition getitem (r : gmap string value) (k : string) : M value :=
  match r !! k with
  | Some v => mret v
  | None => raise KeyError
  end.

(** A value used where only a [str] will do. *)
Definition as_str (e : exn) (v : value) : M string :=
  match v with
  | PyStr s => mret s
  | PyNone => raise e
  end.

(** [float(v)] *)
Definition to_float (v : value) : M spec_float :=
  match v with
  | PyStr s => match Float.float s with
             | Some x => mret x
             | None => raise ValueError
             end
  | PyNone => raise TypeError
  end.

(** [rows[start:]] *)
Definition slice_from {A} (start : Z) (l : list A) : list A :=
  if start <? 0 then drop (Z.to_nat (Z.of_nat (length l) + start)) l
  else drop (Z.to_nat start) l.

(** [l.pop(i)] for an index in range: the element and the shorter list. *)
Definition pop {A} (i : nat) (l : list A) : option (A * list A) :=
  x ← l !! i; Some (x, delete i l).

(** ** The program *)

Definition header : list string := ["date"; "description"; "category"; "amount"].

Definition CATEGORIES : list string :=
  ["food"; "transport"; "rent"; "utilities"; "entertainment";
   "health"; "education"; "clothes"; "misc"].

Definition dquote : string := String (Str.chr 34) EmptyString.

(** The text of several lines, each ended by a newline. *)
Fixpoint unlines (ls : list string) : string :=
  match ls with
  | [] => EmptyString
  | l :: ls' => l +:+ newline +:+ unlines ls'
  end.

Definition rule (n : nat) : string := Str.repeat "—" n.

(** [writer.writerow(fields)] on the open file *)
Definition writerow (fields : list string) : M unit := fun w =>
  (Return tt, set_file (Some (default [] (file w) ++ [fields])) w).

(** [open(DATA_FILE, "w")]: the file is created or emptied. *)
Definition open_w : M unit := fun w => (Return tt, set_file (Some []) w).

Definition ensure_csv : M unit := fun w =>
  match file w with
  | None => (open_w ;; writerow header) w
  | Some _ => (Return tt, w)
  end.

Definition parse_amount (s : string) : M spec_float :=
  match Float.float s with
  | Some x => mret (Float.round2 x)
  | None => print " Amount must be a number. Example: 12.50" ;; sys_exit 1
  end.

Definition valid_date (s : string) : M string :=
  match Datetime.strptime s with
  | Some _ => mret s
  | None => print " Date must be in YYYY-MM-DD format, e.g., 2025-09-20." ;; sys_exit 1
  end.

Definition add_expense (date description category : string) (amount : spec_float)
  : M unit :=
  ensure_csv ;;
  writerow [date; description; Str.lower category; Float.fmt2 amount] ;;
  print (" Added: " +:+ date +:+ " | " +:+ description +:+ " | " +:+ category
         +:+ " | $" +:+ Float.fmt2 amount).

(** [list(csv.DictReader(f))] on the file opened for reading *)
Definition read_file : M (list (gmap string value)) := fun w =>
  (Return (Csv.DictReader (default [] (file w))), w).

Definition read_rows : M (list (gmap string value)) :=
  ensure_csv ;; read_file.

(** [if limit:] holds for an integer other than zero. *)
Definition truthy (limit : option Z) : bool :=
  match limit with
  | Some n => negb (n =? 0)
  | None => false
  end.

Definition list_expenses (limit : option Z) : M unit :=
  ensure_csv ;;
  rows ← read_rows;
  let rows := if truthy limit then slice_from (- default 0 limit) rows else rows in
  print (rule 72) ;;
  print (Str.ljust 10 "DATE" +:+ "  " +:+ Str.ljust 28 "DESCRIPTION" +:+ "  "
         +:+ Str.ljust 14 "CATEGORY" +:+ "  " +:+ Str.rjust 10 "AMOUNT") ;;
  print (rule 72) ;;
  total ← for_acc rows Float.zero (fun total r =>
    amt ← getitem r "amount" ≫= to_float;
    let total := Float.add total amt in
    date ← getitem r "date" ≫= as_str TypeError;
    description ← getitem r "description" ≫= as_str TypeError;
    category ← getitem r "category" ≫= as_str TypeError;
    print (Str.ljust 10 date +:+ "  " +:+ Str.ljust 28 (Str.prefix 28 description)
           +:+ "  " +:+ Str.ljust 14 (Str.prefix 14 category)
           +:+ "  $" +:+ Str.rjust 9 (Float.fmt2 amt)) ;;
    mret total);
  print (rule 72) ;;
  print (Str.ljust 56 "TOTAL" +:+ "  $" +:+ Str.rjust 9 (Float.fmt2 total)).

#[global] Instance value_eq_dec : EqDecision value.
Proof. solve_decision. Defined.

(** The dictionary [sums] of [category_summary], in insertion order. *)
Definition sums_get (cat : value) (sums : list (value * spec_float)) : spec_float :=
  match List.find (fun kv => bool_decide (kv.1 = cat)) sums with
  | Some kv => kv.2
  | None => Float.zero
  end.

Fixpoint sums_set (cat : value) (x : spec_float) (sums : list (value * spec_float))
  : list (value * spec_float) :=
  match sums with
  | [] => [(cat, x)]
  | kv :: rest =>
      if bool_decide (kv.1 = cat) then (cat, x) :: rest
      else kv :: sums_set cat x rest
  end.

(** [sorted(items, key=lambda x: -x[1])]: a stable sort that compares
    keys with [<].  This is the runtime's order whenever the keys are
    totally ordered, that is, when no total is NaN. *)
Definition key_lt (a b : value * spec_float) : bool :=
  SFltb (SFopp a.2) (SFopp b.2).

Fixpoint insert_sorted (x : value * spec_float) (l : list (value * spec_float))
  : list (value * spec_float) :=
  match l with
  | [] => [x]
  | y :: l' => if key_lt x y then x :: l else y :: insert_sorted x l'
  end.

Definition sorted_desc (l : list (value * spec_float)) : list (value * spec_float) :=
  foldl (fun acc x => insert_sorted x acc) [] l.

Definition category_summary : M unit :=
  ensure_csv ;;
  rows ← read_rows;
  sums ← for_acc rows [] (fun sums r =>
    cat ← getitem r "category";
    amt ← getitem r "amount" ≫= to_float;
    mret (sums_set cat (Float.add (sums_get cat sums) amt) sums));
  print (rule 40) ;;
  print (Str.ljust 14 "CATEGORY" +:+ "  " +:+ Str.rjust 10 "TOTAL") ;;
  print (rule 40) ;;
  for_ (sorted_desc sums) (fun '(cat, total) =>
    c ← as_str TypeError cat;
    print (Str.ljust 14 c +:+ "  $" +:+ Str.rjust 9 (Float.fmt2 total))) ;;
  print (rule 40).

(** [sum(xs)] over floats, added from left to right.  (Releases of the
    runtime that carry a compensation term through the sum may differ
    from this in the last place.) *)
Definition sum (xs : list spec_float) : spec_float := foldl Float.add Float.zero xs.

(** The check of [monthly_summary] on its argument. *)
Definition month_ok (year_month : string) : bool :=
  bool_decide (is_Some (Datetime.strptime (year_month +:+ "-01"))).

(** [[r for r in rows if r["date"].startswith(year_month)]] *)
Fixpoint select_month (year_month : string) (rows : list (gmap string value))
  : M (list (gmap string value)) :=
  match rows with
  | [] => mret []
  | r :: rest =>
      date ← getitem r "date" ≫= as_str AttributeError;
      sel ← select_month year_month rest;
      mret (if Str.startswith date year_month then r :: sel else sel)
  end.

(** [float(r["amount"]) for r in rows] *)
Fixpoint amounts (rows : list (gmap string value)) : M (list spec_float) :=
  match rows with
  | [] => mret []
  | r :: rest =>
      x ← getitem r "amount" ≫= to_float;
      xs ← amounts rest;
      mret (x :: xs)
  end.

Definition monthly_summary (year_month : string) : M unit :=
  ensure_csv ;;
  (if month_ok year_month then mret tt
   else print " Month must be in 'YYYY-MM' format, e.g., 2025-09." ;; sys_exit 1) ;;
  rows ← read_rows;
  monthly_rows ← select_month year_month rows;
  xs ← amounts monthly_rows;
  let total := sum xs in
  print ("📆 Monthly Summary for " +:+ year_month) ;;
  print (rule 40) ;;
  for_ monthly_rows (fun r =>
    date ← getitem r "date";
    description ← getitem r "description";
    category ← getitem r "category";
    amt ← getitem r "amount" ≫= to_float;
    print (Csv.to_str date +:+ "  " +:+ Csv.to_str description +:+ "  "
           +:+ Csv.to_str category +:+ "  $" +:+ Float.fmt2 amt)) ;;
  print (rule 40) ;;
  print ("TOTAL: $" +:+ Float.fmt2 total).

Definition list_categories : M unit :=
  print "Available categories:" ;;
  for_ CATEGORIES (fun c => print (" - " +:+ c)).

Definition delete_expense (index : Z) : M unit :=
  ensure_csv ;;
  rows ← read_rows;
  if (index <? 1) || (Z.of_nat (length rows) <? index) then
    print (" Invalid index. Use 1.." +:+ PyInt.str (Z.of_nat (length rows))) ;;
    sys_exit 1
  else
    match pop (Z.to_nat (index - 1)) rows with
    | None => raise IndexError
    | Some (removed, rows) =>
        open_w ;;
        writerow header ;;
        for_ rows (fun r =>
          date ← getitem r "date";
          description ← getitem r "description";
          category ← getitem r "category";
          amount ← getitem r "amount";
          writerow (Csv.field_text <$> [date; description; category; amount])) ;;
        date ← getitem removed "date";
        description ← getitem removed "description";
        category ← getitem removed "category";
        amount ← getitem removed "amount";
        print (" Deleted #" +:+ PyInt.str index +:+ ": " +:+ Csv.to_str date +:+ " | "
               +:+ Csv.to_str description +:+ " | " +:+ Csv.to_str category
               +:+ " | $" +:+ Csv.to_str amount)
    end.

Definition help_text : string :=
  newline +:+ unlines
    [ "Commands:";
      "  add            Add an expense";
      "  list [N]       List all expenses (or last N)";
      "  summary        Show total by category";
      "  monthly YYYY-MM  Show expenses for a month";
      "  categories     Show available categories";
      "  delete N       Delete the N-th expense (from list order)";
      "  quit           Exit" ].

Definition usage_text : string :=
  unlines
    [ "Usage:";
      "  python budget_tracker.py                # interactive mode";
      "  python budget_tracker.py add YYYY-MM-DD " +:+ dquote +:+ "desc" +:+ dquote
        +:+ " category amount";
      "  python budget_tracker.py list [N]";
      "  python budget_tracker.py summary";
      "  python budget_tracker.py monthly YYYY-MM";
      "  python budget_tracker.py categories";
      "  python budget_tracker.py delete N" ].

(** [datetime.today().strftime("%Y-%m-%d")] *)
Definition get_today : M string := fun w => (Return (today w), w).

(** [int(s)] where the program does not catch its [ValueError] *)
Definition to_int (s : string) : M Z :=
  match PyInt.int s with
  | Some n => mret n
  | None => raise ValueError
  end.

(** The [add] branch of the interactive loop. *)
Definition interactive_add : M unit :=
  today ← get_today;
  line ← input ("Date (YYYY-MM-DD) [" +:+ today +:+ "]: ");
  let date := match Str.strip line with EmptyString => today | d => d end in
  match Datetime.strptime date with
  | None => print " Invalid date format."
  | Some _ =>
      line ← input "Description: ";
      let desc := Str.strip line in
      line ← input "Category (or new): ";
      let cat := Str.lower (Str.strip line) in
      line ← input "Amount (e.g., 12.50): ";
      let amount_s := Str.strip line in
      match Float.float amount_s with
      | None => print " Amount must be numeric."
      | Some x => add_expense date desc cat (Float.round2 x)
      end
  end.

(** The optional count of [list]: [parts[1]] as an integer when there are
    exactly two parts and the second one [isdigit()]. *)
Definition list_limit (parts : list string) : M (option Z) :=
  match parts with
  | [_; n] => if Str.isdigit n then l ← to_int n; mret (Some l) else mret None
  | _ => mret None
  end.

(** One pass of the loop body after the prompt, for a command other than
    [quit] and [exit]. *)
Definition interactive_command (cmd : string) : M unit :=
  if String.eqb cmd "help" || String.eqb cmd "?" then print help_text
  else if Str.startswith cmd "add" then interactive_add
  else if Str.startswith cmd "list" then
    limit ← list_limit (Str.split cmd);
    list_expenses limit
  else if String.eqb cmd "summary" then category_summary
  else if Str.startswith cmd "monthly" then
    match Str.split cmd with
    | [_; ym] => monthly_summary ym
    | _ => print "Usage: monthly YYYY-MM"
    end
  else if String.eqb cmd "categories" then list_categories
  else if Str.startswith cmd "delete" then
    match Str.split cmd with
    | [_; n] => if Str.isdigit n then to_int n ≫= delete_expense
                else print "Usage: delete N"
    | _ => print "Usage: delete N"
    end
  else print " Unknown command. Type 'help' for a list of commands.".

(** [while True: ...].  Every pass reads a line, so the loop makes at most
    as many passes as there are lines, plus the one that meets the end of
    the input; [None] is returned only when [fuel] is below that. *)
Fixpoint interactive_loop (fuel : nat) (w : world) : option (outcome unit * world) :=
  match fuel with
  | O => None
  | S fuel' =>
      match input "> " w with
      | (Return line, w1) =>
          let cmd := Str.lower (Str.strip line) in
          if String.eqb cmd "quit" || String.eqb cmd "exit" then Some (Return tt, w1)
          else
            match interactive_command cmd w1 with
            | (Return _, w2) => interactive_loop fuel' w2
            | (SysExit c, w2) => Some (SysExit c, w2)
            | (Raised e, w2) => Some (Raised e, w2)
            end
      | (SysExit c, w1) => Some (SysExit c, w1)
      | (Raised e, w1) => Some (Raised e, w1)
      end
  end.

(** The loop with fuel for every line of the input; the default is never
    taken. *)
Definition interactive_while : M unit := fun w =>
  default (Raised EOFError, w) (interactive_loop (S (length (stdin w))) w).

Definition interactive : M unit :=
  ensure_csv ;;
  print "💸 Budget Tracker CLI — Interactive Mode" ;;
  print ("Type 'help' for commands. 'quit' to exit." +:+ newline) ;;
  interactive_while.

Definition arg (args : list string) (i : nat) : string := default "" (args !! i).

Definition main (args : list string) : M unit :=
  match args with
  | [] => interactive
  | cmd :: _ =>
      if String.eqb cmd "add" && (5 <=? length args)%nat then
        date ← valid_date (arg args 1);
        let desc := arg args 2 in
        let category := Str.lower (arg args 3) in
        amount ← parse_amount (arg args 4);
        add_expense date desc category amount
      else if String.eqb cmd "list" then
        limit ← list_limit args;
        list_expenses limit
      else if String.eqb cmd "summary" then category_summary
      else if String.eqb cmd "monthly" && (length args =? 2)%nat then
        monthly_summary (arg args 1)
      else if String.eqb cmd "categories" then list_categories
      else if String.eqb cmd "delete" && (length args =? 2)%nat then
        to_int (arg args 1) ≫= delete_expense
      else print usage_text
  end.

(** ** Vocabulary of the properties *)

(** A transaction record and the table of the data model: the header row
    followed by one four-field row per record, in order. *)
Record expense : Type := Expense {
  date : string;
  description : string;
  category : string;
  amount : string
}.

Definition row_of (e : expense) : list string :=
  [date e; description e; category e; amount e].

Definition table (es : list expense) : list (list string) :=
  header :: (row_of <$> es).

(** The dictionary the reader builds for a record of a table. *)
Definition dict_of (e : expense) : gmap string value :=
  Csv.make_dict header (row_of e).

(** A text with exactly two decimal places: an optional minus sign, one
    or more digits, a point, two digits. *)
Fixpoint digits_point_two (s : string) (seen : bool) : bool :=
  match s with
  | String c r =>
      if Str.isdecimal c then digits_point_two r true
      else if Ascii.eqb c "." then
        seen && match r with
                | String a (String b EmptyString) => Str.isdecimal a && Str.isdecimal b
                | _ => false
                end
      else false
  | EmptyString => false
  end.

Definition two_decimals (s : string) : bool :=
  match s with
  | String "-" r => digits_point_two r false
  | _ => digits_point_two s false
  end.

(** The date pattern as the specification words it: four digits, a
    hyphen, a two-digit month 01-12, a hyphen, a two-digit day, the three
    numbers forming a date of the calendar. *)
Definition spec_date (s : string) : bool :=
  match s with
  | String y1 (String y2 (String y3 (String y4 (String "-"
      (String m1 (String m2 (String "-" (String d1 (String d2 EmptyString))))))))) =>
      forallb Str.isdecimal [y1; y2; y3; y4; m1; m2; d1; d2]
      && (let v := PyInt.digit_value in
          let y := 1000 * v y1 + 100 * v y2 + 10 * v y3 + v y4 in
          let m := 10 * v m1 + v m2 in
          let d := 10 * v d1 + v d2 in
          (1 <=? m) && (m <=? 12) && (1 <=? d) && (d <=? Datetime.days_in_month y m))
  | _ => false
  end.

(** The stores the program can reach from no file at all by [add] and
    [delete] invocations. *)
Inductive reachable : option (list (list string)) -> Prop :=
| reach_init : reachable None
| reach_step (w : world) (args : list string) :
    reachable (file w) ->
    head args = Some "add" \/ head args = Some "delete" ->
    reachable (file (main args w).2).

(** The amount column of a file: the fourth field of every row after the
    header. *)
Definition amount_column (rows : list (list string)) : list string :=
  (fun r => default "" (r !! 3%nat)) <$> tail rows.

(** What [monthly_summary] is to print for the selected records [sel]
    whose amounts read as the floats [xs]: a title, a rule, one line per
    record, a rule and the total. *)
Definition monthly_line (e : expense) (x : spec_float) : string :=
  date e +:+ "  " +:+ description e +:+ "  " +:+ category e +:+ "  $" +:+ Float.fmt2 x.

Definition monthly_report (year_month : string) (sel : list expense)
    (xs : list spec_float) : string :=
  unlines (["📆 Monthly Summary for " +:+ year_month; rule 40]
           ++ zip_with monthly_line sel xs
           ++ [rule 40; "TOTAL: $" +:+ Float.fmt2 (sum xs)]).

(** What [list_expenses] is to print for the records [es] whose amounts
    read as the floats [xs]: the column titles between two rules, one
    line per record, a rule and the total. *)
Definition list_line (e : expense) (x : spec_float) : string :=
  Str.ljust 10 (date e) +:+ "  " +:+ Str.ljust 28 (Str.prefix 28 (description e))
  +:+ "  " +:+ Str.ljust 14 (Str.prefix 14 (category e))
  +:+ "  $" +:+ Str.rjust 9 (Float.fmt2 x).

Definition listing (es : list expense) (xs : list spec_float) : string :=
  unlines ([rule 72;
            Str.ljust 10 "DATE" +:+ "  " +:+ Str.ljust 28 "DESCRIPTION" +:+ "  "
            +:+ Str.ljust 14 "CATEGORY" +:+ "  " +:+ Str.rjust 10 "AMOUNT";
            rule 72]
           ++ zip_with list_line es xs
           ++ [rule 72;
               Str.ljust 56 "TOTAL" +:+ "  $" +:+ Str.rjust 9 (Float.fmt2 (sum xs))]).

(** The floats other than the infinities and NaN. *)
Definition finite (x : spec_float) : bool :=
  match x with
  | S754_zero _ | S754_finite _ _ _ => true
  | _ => false
  end.

(** A computation that adds no line to the input. *)
Definition stdin_le {A} (m : M A) : Prop :=
  forall w, (length (stdin (m w).2) <= length (stdin w))%nat.

(** The text [ds.ab] of digits, with or without a minus sign. *)
Definition money (neg : bool) (ds : string) (a b : ascii) : string :=
  (if neg then "-" else "") +:+ ds +:+ "." +:+ String a (String b "").

(** An amount text that [f"{x:.2f}"] wrote. *)
Definition written (e : expense) : Prop := exists x, amount e = Float.fmt2 x.

(** A store the program keeps: no file yet, or a table whose amounts the
    program wrote. *)
Definition well_formed (f : option (list (list string))) : Prop :=
  f = None \/ exists es, f = Some (table es) /\ Forall written es.

(** ** Vocabulary of the further properties *)

(** What a computation keeps: a relation between the world before it and
    the world after it, however it ends. *)
Definition keeps {A} (R : world -> world -> Prop) (m : M A) : Prop :=
  forall w, R w (m w).2.

(** The store is as it was, or there was no file and it now holds the
    header row alone. *)
Definition store_kept (w w' : world) : Prop :=
  file w' = file w \/ (file w = None /\ file w' = Some [header]).


(** The input left is an end of the input there was. *)
Definition input_left (w w' : world) : Prop := suffix (stdin w') (stdin w).

(** A line that ends the interactive loop. *)
Definition quits (line : string) : Prop :=
  Str.lower (Str.strip line) = "quit" \/ Str.lower (Str.strip line) = "exit".


(** An input line that asks neither for an addition nor for a deletion:
    the command on it starts neither with [add] nor with [delete]. *)
Definition looks_only (line : string) : Prop :=
  Str.startswith (Str.lower (Str.strip line)) "add" = false
  /\ Str.startswith (Str.lower (Str.strip line)) "delete" = false.

(** The amounts of the records of category [c], in file order, for
    records [es] whose amounts read as [xs]. *)
Definition amounts_of (c : string) (es : list expense) (xs : list spec_float)
  : list spec_float :=
  (filter (fun ex => category ex.1 = c) (zip es xs)).*2.

(** What [category_summary] is to print for the rows [rows] of a category
    and its total: the column titles between two rules, one line per row
    and a rule. *)
Definition summary_line (r : string * spec_float) : string :=
  Str.ljust 14 r.1 +:+ "  $" +:+ Str.rjust 9 (Float.fmt2 r.2).

Definition summary_report (rows : list (string * spec_float)) : string :=
  unlines ([rule 40; Str.ljust 14 "CATEGORY" +:+ "  " +:+ Str.rjust 10 "TOTAL"; rule 40]
           ++ (summary_line <$> rows) ++ [rule 40]).

(** One pass of the loop of [category_summary] over a record and the
    float its amount reads as. *)
Definition tally_step (sums : list (value * spec_float)) (ex : expense * spec_float)
  : list (value * spec_float) :=
  let cat := PyStr (category ex.1) in
  sums_set cat (Float.add (sums_get cat sums) ex.2) sums.

Definition is_nan (x : spec_float) : bool :=
  match x with S754_nan => true | _ => false end.

(** A row dictionary that lacks one of the four columns the program
    looks up. *)
Definition lacks_column (r : gmap string value) : Prop :=
  r !! "date" = None \/ r !! "description" = None
  \/ r !! "category" = None \/ r !! "amount" = None.


(** * Properties *)

(** ** Checks of the runtime model *)

Example strip_split :
  Str.strip "  List 3 " = "List 3" /\ Str.split "delete   12" = ["delete"; "12"].
Proof. split; reflexivity. Qed.

Example int_reads :
  PyInt.int " -1_000 " = Some (-1000) /\ PyInt.int "abc" = None /\ PyInt.int "" = None.
Proof. repeat split; reflexivity. Qed.

Example float_reads_a_tenth :
  Float.float "0.1" = Some (S754_finite false 7205759403792794 (-56)).
Proof. vm_compute. reflexivity. Qed.

Example float_reads_underscores :
  (Float.fmt2 <$> Float.float "1_000.5") = Some "1000.50"
  /\ Float.float "1__0" = None /\ Float.float "_1" = None
  /\ Float.float "1_" = None /\ Float.float "1_.5" = None
  /\ Float.float "1e" = None /\ Float.float "." = None.
Proof. repeat split; vm_compute; reflexivity. Qed.

Example float_reads_words :
  Float.float "inf" = Some (S754_infinity false)
  /\ Float.float "-Infinity" = Some (S754_infinity true)
  /\ Float.float "nan" = Some S754_nan
  /\ Float.float "1e400" = Some (S754_infinity false)
  /\ Float.float "12,50" = None.
Proof. repeat split; vm_compute; reflexivity. Qed.

(** Rounding goes by the binary value, ties to even. *)
Example rounding :
  (Float.fmt2 <$> (Float.round2 <$> Float.float "2.675")) = Some "2.67"
  /\ (Float.fmt2 <$> (Float.round2 <$> Float.float "0.125")) = Some "0.12"
  /\ (Float.fmt2 <$> (Float.round2 <$> Float.float "0.375")) = Some "0.38"
  /\ (Float.fmt2 <$> (Float.round2 <$> Float.float "-0.001")) = Some "-0.00"
  /\ (Float.fmt2 <$> (Float.round2 <$> Float.float "3.5")) = Some "3.50".
Proof. repeat split; vm_compute; reflexivity. Qed.

Example strptime_cases :
  Datetime.strptime "2025-09-20" = Some (2025, 9, 20)
  /\ Datetime.strptime "2024-02-29" = Some (2024, 2, 29)
  /\ Datetime.strptime "2025-02-30" = None
  /\ Datetime.strptime "2025-13-01" = None
  /\ Datetime.strptime "0000-01-01" = None
  /\ Datetime.strptime "2025-01-311" = None
  /\ Datetime.strptime "2025-01- 5" = Some (2025, 1, 5).
Proof. repeat split; reflexivity. Qed.

(** The scenario of the specification: three records are added to an
    empty store; the month of September totals 1203.50 over two rows. *)
Example scenario :
  let w0 := World None "" [] "2025-09-20" in
  let w1 := (main ["add"; "2025-09-01"; "Coffee"; "Food"; "3.5"] w0).2 in
  let w2 := (main ["add"; "2025-09-15"; "Rent"; "rent"; "1200"] w1).2 in
  let w3 := (main ["add"; "2025-08-01"; "Book"; "education"; "20"] w2).2 in
  file w3 = Some (table [Expense "2025-09-01" "Coffee" "food" "3.50";
                         Expense "2025-09-15" "Rent" "rent" "1200.00";
                         Expense "2025-08-01" "Book" "education" "20.00"])
  /\ stdout (main ["monthly"; "2025-09"] (set_stdout "" w3)).2
     = unlines ["📆 Monthly Summary for 2025-09"; rule 40;
                "2025-09-01  Coffee  food  $3.50";
                "2025-09-15  Rent  rent  $1200.00";
                rule 40; "TOTAL: $1203.50"]
  /\ stdout (main ["summary"] (set_stdout "" w3)).2
     = unlines [rule 40; "CATEGORY             TOTAL"; rule 40;
                "rent            $  1200.00";
                "education       $    20.00";
                "food            $     3.50";
                rule 40].
Proof. repeat split; vm_compute; reflexivity. Qed.

(** ** Running computations *)

Lemma bind_run {A B} (m : M A) (k : A -> M B) (w : world) :
  (m ≫= k) w =
  match m w with
  | (Return a, w') => k a w'
  | (SysExit c, w') => (SysExit c, w')
  | (Raised e, w') => (Raised e, w')
  end.
Proof. reflexivity. Qed.

Lemma bind_return {A B} (m : M A) (k : A -> M B) (w w' : world) (a : A) :
  m w = (Return a, w') -> (m ≫= k) w = k a w'.
Proof. intros H. rewrite bind_run, H. reflexivity. Qed.

Lemma ensure_csv_present (w : world) (rows : list (list string)) :
  file w = Some rows -> ensure_csv w = (Return tt, w).
Proof. intros H. unfold ensure_csv. rewrite H. reflexivity. Qed.

Lemma read_rows_present (w : world) (rows : list (list string)) :
  file w = Some rows -> read_rows w = (Return (Csv.DictReader rows), w).
Proof.
  intros H. unfold read_rows.
  rewrite (bind_return _ _ _ _ _ (ensure_csv_present _ _ H)).
  unfold read_file. rewrite H. reflexivity.
Qed.

(** ** Printing *)

Lemma append_assoc (a b c : string) : (a +:+ b) +:+ c = a +:+ (b +:+ c).
Proof.
  induction a as [| x a IH]; [reflexivity |].
  change (String x ((a +:+ b) +:+ c) = String x (a +:+ (b +:+ c))).
  f_equal. exact IH.
Qed.

Lemma append_nil_r (a : string) : a +:+ "" = a.
Proof.
  induction a as [| x a IH]; [reflexivity |].
  change (String x (a +:+ "") = String x a).
  f_equal. exact IH.
Qed.

Lemma unlines_app (l1 l2 : list string) :
  unlines (l1 ++ l2) = unlines l1 +:+ unlines l2.
Proof.
  induction l1 as [| l l1 IH]; cbn [unlines app]; [reflexivity |].
  rewrite IH, !append_assoc. reflexivity.
Qed.

Lemma unlines_cons2 (a b : string) (l : list string) :
  unlines (a :: b :: l) = unlines [a] +:+ unlines (b :: l).
Proof. exact (unlines_app [a] (b :: l)). Qed.

Lemma print_run (s : string) (w : world) :
  print s w = (Return tt, set_stdout (stdout w +:+ unlines [s]) w).
Proof. unfold print. cbn [unlines]. rewrite append_nil_r. reflexivity. Qed.

Lemma set_stdout_same (w : world) : set_stdout (stdout w) w = w.
Proof. destruct w; reflexivity. Qed.

(** ** Deleting by position *)

(** Whatever the file holds, an index outside [1..len(rows)] is refused
    before anything is written. *)
Lemma delete_expense_rejects (w : world) (rows : list (list string)) (k : Z) :
  file w = Some rows ->
  let count := Z.of_nat (length (Csv.DictReader rows)) in
  k < 1 \/ count < k ->
  delete_expense k w
  = (SysExit 1,
     set_stdout (stdout w +:+ (" Invalid index. Use 1.." +:+ PyInt.str count) +:+ newline) w).
Proof.
  intros Hf count Hk. unfold delete_expense.
  rewrite (bind_return _ _ _ _ _ (ensure_csv_present _ _ Hf)).
  rewrite (bind_return _ _ _ _ _ (read_rows_present _ _ Hf)).
  fold count.
  assert (Hc : (k <? 1) || (count <? k) = true).
  { apply orb_true_iff. destruct Hk; [left | right]; apply Z.ltb_lt; lia. }
  rewrite Hc. reflexivity.
Qed.

(** *** What the reader makes of a table *)

Lemma dict_of_lookup (e : expense) :
  dict_of e !! "date" = Some (PyStr (date e))
  /\ dict_of e !! "description" = Some (PyStr (description e))
  /\ dict_of e !! "category" = Some (PyStr (category e))
  /\ dict_of e !! "amount" = Some (PyStr (amount e)).
Proof. destruct e. repeat split; reflexivity. Qed.

Lemma getitem_dict_of (e : expense) (w : world) :
  getitem (dict_of e) "date" w = (Return (PyStr (date e)), w)
  /\ getitem (dict_of e) "description" w = (Return (PyStr (description e)), w)
  /\ getitem (dict_of e) "category" w = (Return (PyStr (category e)), w)
  /\ getitem (dict_of e) "amount" w = (Return (PyStr (amount e)), w).
Proof.
  destruct (dict_of_lookup e) as (H1 & H2 & H3 & H4).
  unfold getitem. rewrite H1, H2, H3, H4. repeat split; reflexivity.
Qed.

Lemma DictReader_table (es : list expense) :
  Csv.DictReader (table es) = dict_of <$> es.
Proof.
  unfold table, Csv.DictReader. induction es as [| e es IH]; [reflexivity |].
  cbn [fmap list_fmap List.filter row_of Csv.nonempty].
  f_equal. exact IH.
Qed.

(** C3.  On a table of [count] records, [delete_expense k] with [k < 1]
    or [k > count] ends by [sys.exit(1)], the one line it prints names
    the range [1..count], and the file is what it was. *)
Theorem delete_expense_out_of_range (w : world) (es : list expense) (k : Z) :
  file w = Some (table es) ->
  let count := Z.of_nat (length es) in
  k < 1 \/ count < k ->
  (delete_expense k w).1 = SysExit 1
  /\ file (delete_expense k w).2 = file w
  /\ stdout (delete_expense k w).2
     = stdout w +:+ (" Invalid index. Use 1.." +:+ PyInt.str count) +:+ newline.
Proof.
  intros Hf count Hk.
  rewrite (delete_expense_rejects w _ k Hf);
    rewrite DictReader_table, length_fmap; [| exact Hk].
  repeat split.
Qed.

Lemma delete_expense_out_of_range_witness :
  let es := [Expense "2025-09-01" "Coffee" "food" "3.50";
             Expense "2025-09-15" "Rent" "rent" "1200.00"] in
  let w := World (Some (table es)) "" [] "2025-09-20" in
  (delete_expense 99 w).1 = SysExit 1
  /\ file (delete_expense 99 w).2 = Some (table es)
  /\ stdout (delete_expense 99 w).2 = " Invalid index. Use 1..2" +:+ newline.
Proof.
  intros es w.
  exact (delete_expense_out_of_range w es 99 eq_refl (or_intror eq_refl)).
Defined.

(** The rewriting loop of [delete_expense] appends one row per record. *)
Lemma rewrite_rows (es : list expense) (w : world) (rows0 : list (list string)) :
  file w = Some rows0 ->
  for_ (dict_of <$> es) (fun r =>
      date ← getitem r "date";
      description ← getitem r "description";
      category ← getitem r "category";
      amount ← getitem r "amount";
      writerow (Csv.field_text <$> [date; description; category; amount])) w
  = (Return tt, set_file (Some (rows0 ++ (row_of <$> es))) w).
Proof.
  revert w rows0. induction es as [| e es IH]; intros w rows0 Hf.
  - cbn. rewrite app_nil_r. destruct w; cbn in *; subst; reflexivity.
  - cbn [fmap list_fmap for_]. rewrite bind_run.
    destruct (getitem_dict_of e w) as (H1 & H2 & H3 & H4).
    rewrite (bind_return _ _ _ _ _ H1), (bind_return _ _ _ _ _ H2),
            (bind_return _ _ _ _ _ H3), (bind_return _ _ _ _ _ H4).
    unfold writerow at 1. rewrite Hf. cbn [default].
    rewrite (IH _ (rows0 ++ [row_of e])) by reflexivity.
    rewrite <- app_assoc. reflexivity.
Qed.

(** Deleting the record that stands after [before] and before [after]
    leaves the header and the two parts, and shows the record. *)
Lemma delete_expense_middle (w : world) (before after : list expense) (e : expense) :
  file w = Some (table (before ++ e :: after)) ->
  let k := Z.of_nat (length before) + 1 in
  delete_expense k w =
    (Return tt,
     World (Some (table (before ++ after)))
           (stdout w +:+
            (" Deleted #" +:+ PyInt.str k +:+ ": " +:+ date e +:+ " | "
             +:+ description e +:+ " | " +:+ category e +:+ " | $" +:+ amount e)
            +:+ newline)
           (stdin w) (today w)).
Proof.
  intros Hf k. unfold delete_expense.
  rewrite (bind_return _ _ _ _ _ (ensure_csv_present _ _ Hf)).
  rewrite (bind_return _ _ _ _ _ (read_rows_present _ _ Hf)).
  rewrite DictReader_table, length_fmap, length_app. cbn [length].
  assert (Hc : (k <? 1) || (Z.of_nat (length before + S (length after)) <? k) = false).
  { apply orb_false_iff. split; apply Z.ltb_ge; lia. }
  rewrite Hc. replace (Z.to_nat (k - 1)) with (length before) by lia.
  unfold pop. rewrite fmap_app, fmap_cons.
  rewrite (list_lookup_middle _ _ _ (length before)) by (rewrite length_fmap; reflexivity).
  replace (length before) with (length (dict_of <$> before)) by apply length_fmap.
  rewrite delete_middle.
  cbn [mbind option_bind].
  rewrite bind_run. cbn [open_w]. rewrite bind_run.
  cbn [writerow set_file file default app stdout stdin today].
  rewrite bind_run, <- fmap_app.
  rewrite (rewrite_rows _ _ [header]) by reflexivity.
  destruct (getitem_dict_of e
              (set_file (Some ([header] ++ (row_of <$> before ++ after)))
                 (World (Some [header]) (stdout w) (stdin w) (today w))))
    as (H1 & H2 & H3 & H4).
  rewrite (bind_return _ _ _ _ _ H1), (bind_return _ _ _ _ _ H2),
          (bind_return _ _ _ _ _ H3), (bind_return _ _ _ _ _ H4).
  reflexivity.
Qed.

(** C4.  On a table of [count] records and for [k] in [1..count],
    [delete_expense k] returns normally and leaves the file holding the
    header row followed by the records before the [k]-th and the records
    after it, in their order; the line it prints shows the removed
    record. *)
Theorem delete_expense_in_range (w : world) (es : list expense) (k : Z) :
  file w = Some (table es) ->
  1 <= k <= Z.of_nat (length es) ->
  exists e : expense,
    es !! Z.to_nat (k - 1) = Some e
    /\ delete_expense k w =
       (Return tt,
        World (Some (header :: (row_of <$> take (Z.to_nat (k - 1)) es ++ drop (Z.to_nat k) es)))
              (stdout w +:+
               (" Deleted #" +:+ PyInt.str k +:+ ": " +:+ date e +:+ " | "
                +:+ description e +:+ " | " +:+ category e +:+ " | $" +:+ amount e)
               +:+ newline)
              (stdin w) (today w)).
Proof.
  intros Hf Hk.
  destruct (lookup_lt_is_Some_2 es (Z.to_nat (k - 1)) ltac:(lia)) as [e He].
  exists e. split; [exact He |].
  pose proof (take_drop_middle es _ e He) as Hes.
  replace (S (Z.to_nat (k - 1))) with (Z.to_nat k) in Hes by lia.
  rewrite <- Hes in Hf.
  pose proof (delete_expense_middle w _ _ e Hf) as Hd. cbv zeta in Hd.
  rewrite length_take in Hd.
  replace (Z.of_nat (Z.to_nat (k - 1) `min` length es) + 1) with k in Hd by lia.
  exact Hd.
Qed.

Lemma delete_expense_in_range_witness :
  let es := [Expense "2025-09-01" "Coffee" "food" "3.50";
             Expense "2025-09-15" "Rent" "rent" "1200.00";
             Expense "2025-08-01" "Book" "education" "20.00"] in
  let w := World (Some (table es)) "" [] "2025-09-20" in
  exists e : expense,
    es !! 0%nat = Some e
    /\ delete_expense 1 w =
       (Return tt,
        World (Some (table [Expense "2025-09-15" "Rent" "rent" "1200.00";
                            Expense "2025-08-01" "Book" "education" "20.00"]))
              (" Deleted #1: " +:+ date e +:+ " | " +:+ description e +:+ " | "
               +:+ category e +:+ " | $" +:+ amount e +:+ newline)
              [] "2025-09-20").
Proof.
  intros es w.
  destruct (delete_expense_in_range w es 1 eq_refl ltac:(cbn; lia)) as (e & He & Hd).
  exists e. split; [exact He |].
  rewrite Hd. injection He as <-. reflexivity.
Defined.

(** ** Validation of dates *)

(** C2.  [2025-9-5] has a one-digit month and a one-digit day, so it is
    not of the specified pattern, and [valid_date] accepts it. *)
Theorem valid_date_accepts_short_fields (w : world) :
  spec_date "2025-9-5" = false
  /\ valid_date "2025-9-5" w = (Return "2025-9-5", w).
Proof. split; reflexivity. Qed.

(** ** Dates of the specified shape

    Every text of the shape YYYY-MM-DD that names a date of the calendar
    from year 1 on is accepted by [strptime]; the pattern of the
    specification is thus within what the validation accepts, the year
    0000 apart. *)

Lemma re_Y_digits (y1 y2 y3 y4 : ascii) (r : string) :
  Str.isdecimal y1 = true -> Str.isdecimal y2 = true ->
  Str.isdecimal y3 = true -> Str.isdecimal y4 = true ->
  Datetime.re_Y (String y1 (String y2 (String y3 (String y4 r))))
  = [(String y1 (String y2 (String y3 (String y4 ""))), r)].
Proof.
  intros H1 H2 H3 H4.
  unfold Datetime.re_Y, Datetime.seq, Datetime.digit, Datetime.one.
  rewrite H1. cbn [mbind list_bind app]. rewrite H2. cbn [mbind list_bind app].
  rewrite H3. cbn [mbind list_bind app]. rewrite H4.
  reflexivity.
Qed.

Lemma digit_cases (c : ascii) :
  Str.isdecimal c = true ->
  let v := PyInt.digit_value c in
  (c = "0"%char /\ v = 0) \/ (c = "1"%char /\ v = 1) \/ (c = "2"%char /\ v = 2)
  \/ (c = "3"%char /\ v = 3) \/ (c = "4"%char /\ v = 4) \/ (c = "5"%char /\ v = 5)
  \/ (c = "6"%char /\ v = 6) \/ (c = "7"%char /\ v = 7) \/ (c = "8"%char /\ v = 8)
  \/ (c = "9"%char /\ v = 9).
Proof.
  destruct c as [[] [] [] [] [] [] [] []]; intros H; try discriminate H;
    cbn; auto 20.
Qed.

Lemma int_year (y1 y2 y3 y4 : ascii) :
  Str.isdecimal y1 = true -> Str.isdecimal y2 = true ->
  Str.isdecimal y3 = true -> Str.isdecimal y4 = true ->
  let v := PyInt.digit_value in
  PyInt.int (String y1 (String y2 (String y3 (String y4 ""))))
  = Some (1000 * v y1 + 100 * v y2 + 10 * v y3 + v y4).
Proof.
  intros H1 H2 H3 H4 v.
  transitivity (PyInt.digits (String y1 (String y2 (String y3 (String y4 "")))) 0 false).
  - destruct (digit_cases y1 H1) as [[-> _] | [[-> _] | [[-> _] | [[-> _] | [[-> _] | [[-> _] | [[-> _] | [[-> _] | [[-> _] | [-> _]]]]]]]]]];
    destruct (digit_cases y4 H4) as [[-> _] | [[-> _] | [[-> _] | [[-> _] | [[-> _] | [[-> _] | [[-> _] | [[-> _] | [[-> _] | [-> _]]]]]]]]]];
    reflexivity.
  - cbn [PyInt.digits]. rewrite H1, H2, H3, H4. f_equal. subst v. lia.
Qed.

Lemma days_in_month_le (y m : Z) : Datetime.days_in_month y m <= 31.
Proof.
  unfold Datetime.days_in_month.
  destruct (m =? 2); [destruct (Datetime.is_leap y); lia |].
  destruct (_ || _); lia.
Qed.


Ltac digit_split H :=
  destruct H as [[-> ?] | [[-> ?] | [[-> ?] | [[-> ?] | [[-> ?] | [[-> ?]
                 | [[-> ?] | [[-> ?] | [[-> ?] | [-> ?]]]]]]]]]].

Lemma strptime_iso (y1 y2 y3 y4 m1 m2 d1 d2 : ascii) :
  forallb Str.isdecimal [y1; y2; y3; y4; m1; m2; d1; d2] = true ->
  let v := PyInt.digit_value in
  let y := 1000 * v y1 + 100 * v y2 + 10 * v y3 + v y4 in
  let m := 10 * v m1 + v m2 in
  let d := 10 * v d1 + v d2 in
  Datetime.date_ok y m d = true ->
  Datetime.strptime
    (String y1 (String y2 (String y3 (String y4 (String "-"
      (String m1 (String m2 (String "-" (String d1 (String d2 ""))))))))))
  = Some (y, m, d).
Proof.
  intros Hall v y m d Hok.
  cbn [forallb] in Hall.
  repeat (apply andb_true_iff in Hall; destruct Hall as [?H Hall]).
  unfold Datetime.date_ok in Hok.
  repeat (apply andb_true_iff in Hok; destruct Hok as [Hok ?Hd]).
  pose proof (days_in_month_le y m) as Hle.
  apply Z.leb_le in Hok, Hd, Hd0, Hd1, Hd2, Hd3.
  assert (Hok' : Datetime.date_ok y m d = true).
  { unfold Datetime.date_ok. repeat (apply andb_true_iff; split); apply Z.leb_le; assumption. }
  pose proof (int_year y1 y2 y3 y4 H H0 H1 H2) as Hy. cbv zeta in Hy. fold v y in Hy.
  unfold Datetime.strptime, Datetime.re_Ymd.
  rewrite (re_Y_digits y1 y2 y3 y4 _ H H0 H1 H2).
  clearbody y. clear H H0 H1 H2.
  pose proof (digit_cases m1 H3) as C1. pose proof (digit_cases m2 H4) as C2.
  pose proof (digit_cases d1 H5) as C3. pose proof (digit_cases d2 H6) as C4.
  cbv zeta in C1, C2, C3, C4. fold v in C1, C2, C3, C4.
  subst m d. clear H3 H4 H5 H6 Hall.
  digit_split C1; try lia; digit_split C2; try lia.
  all: digit_split C3; try lia; digit_split C4; try lia.
  all: match goal with
       | |- _ = Some (?y, ?m, ?d) =>
           transitivity
             (PyInt.int (String y1 (String y2 (String y3 (String y4 ""))))
              ≫= fun y0 => if Datetime.date_ok y0 m d then Some (y0, m, d) else None);
           [reflexivity | rewrite Hy; cbn [mbind option_bind]; rewrite Hok'; reflexivity]
       end.
Qed.


Lemma digit_zero_or_pos (c : ascii) :
  Str.isdecimal c = true ->
  (c = "0"%char /\ PyInt.digit_value c = 0) \/ 1 <= PyInt.digit_value c <= 9.
Proof.
  intros H. pose proof (digit_cases c H) as C. cbv zeta in C.
  digit_split C; [left; split; [reflexivity | assumption] | ..]; right; lia.
Qed.

Lemma spec_date_shape (s : string) :
  spec_date s = true ->
  exists y1 y2 y3 y4 m1 m2 d1 d2 : ascii,
    s = String y1 (String y2 (String y3 (String y4 (String "-"
          (String m1 (String m2 (String "-" (String d1 (String d2 ""))))))))).
Proof.
  destruct s as [| y1 [| y2 [| y3 [| y4 [| h1 [| m1 [| m2 [| h2 [| d1 [| d2 [| x r]]]]]]]]]]];
    intros H; try discriminate H.
  all: destruct h1 as [[] [] [] [] [] [] [] []]; try discriminate H.
  all: destruct h2 as [[] [] [] [] [] [] [] []]; try discriminate H.
  repeat eexists.
Qed.

(** A text of the specified shape whose year is not 0000 is accepted. *)
Lemma spec_date_accepted (s : string) :
  spec_date s = true ->
  Str.startswith s "0000" = false ->
  is_Some (Datetime.strptime s).
Proof.
  intros H Hy0.
  destruct (spec_date_shape s H) as (y1 & y2 & y3 & y4 & m1 & m2 & d1 & d2 & ->).
  cbn [spec_date] in H. apply andb_true_iff in H as [Hall H].
  cbv zeta in H.
  repeat (apply andb_true_iff in H; destruct H as [H ?Hc]).
  eexists. apply strptime_iso; [exact Hall |].
  cbn [forallb] in Hall.
  repeat (apply andb_true_iff in Hall; destruct Hall as [?Hd Hall]).
  unfold Datetime.date_ok. rewrite H, Hc, Hc0, Hc1, !andb_true_r.
  pose proof (digit_zero_or_pos y1 Hd) as Z1.
  pose proof (digit_zero_or_pos y2 Hd0) as Z2.
  pose proof (digit_zero_or_pos y3 Hd1) as Z3.
  pose proof (digit_zero_or_pos y4 Hd2) as Z4.
  apply andb_true_iff. split; apply Z.leb_le; [| lia].
  destruct Z1 as [[-> V1] | ?]; [| lia].
  destruct Z2 as [[-> V2] | ?]; [| lia].
  destruct Z3 as [[-> V3] | ?]; [| lia].
  destruct Z4 as [[-> V4] | ?]; [| lia].
  discriminate Hy0.
Qed.


(** ** The monthly summary *)

Lemma select_month_table (ym : string) (es : list expense) (w : world) :
  select_month ym (dict_of <$> es) w
  = (Return (dict_of <$> List.filter (fun e => Str.startswith (date e) ym) es), w).
Proof.
  induction es as [| e es IH]; [reflexivity |].
  cbn [fmap list_fmap select_month List.filter].
  destruct (getitem_dict_of e w) as (H1 & _).
  rewrite bind_run, (bind_return _ _ _ _ _ H1). cbn [as_str mret M_ret].
  rewrite (bind_return _ _ _ _ _ IH). cbn [mret M_ret].
  destruct (Str.startswith (date e) ym); reflexivity.
Qed.

Lemma amounts_table (sel : list expense) (xs : list spec_float) (w : world) :
  Forall2 (fun e x => Float.float (amount e) = Some x) sel xs ->
  amounts (dict_of <$> sel) w = (Return xs, w).
Proof.
  induction 1 as [| e x sel xs Hx _ IH]; [reflexivity |].
  cbn [fmap list_fmap amounts].
  destruct (getitem_dict_of e w) as (_ & _ & _ & H4).
  rewrite bind_run, (bind_return _ _ _ _ _ H4). cbn [to_float]. rewrite Hx.
  cbn [mret M_ret]. rewrite (bind_return _ _ _ _ _ IH). reflexivity.
Qed.

Lemma monthly_lines (sel : list expense) (xs : list spec_float) (w : world) :
  Forall2 (fun e x => Float.float (amount e) = Some x) sel xs ->
  for_ (dict_of <$> sel) (fun r =>
      date ← getitem r "date";
      description ← getitem r "description";
      category ← getitem r "category";
      amt ← getitem r "amount" ≫= to_float;
      print (Csv.to_str date +:+ "  " +:+ Csv.to_str description +:+ "  "
             +:+ Csv.to_str category +:+ "  $" +:+ Float.fmt2 amt)) w
  = (Return tt, set_stdout (stdout w +:+ unlines (zip_with monthly_line sel xs)) w).
Proof.
  intros H. revert w. induction H as [| e x sel xs Hx _ IH]; intros w.
  - cbn. rewrite append_nil_r, set_stdout_same. reflexivity.
  - cbn [fmap list_fmap for_ zip_with]. rewrite bind_run.
    destruct (getitem_dict_of e w) as (H1 & H2 & H3 & H4).
    rewrite (bind_return _ _ _ _ _ H1), (bind_return _ _ _ _ _ H2),
            (bind_return _ _ _ _ _ H3).
    rewrite bind_run, (bind_return _ _ _ _ _ H4). cbn [to_float]. rewrite Hx.
    cbn [mret M_ret Csv.to_str]. rewrite print_run, IH.
    cbn [set_stdout stdout file stdin today].
    change (monthly_line e x :: zip_with monthly_line sel xs)
      with ([monthly_line e x] ++ zip_with monthly_line sel xs).
    rewrite unlines_app, append_assoc. reflexivity.
Qed.

(** C5.  On a table, for an argument that passes the month check, and
    when the amounts of the selected records read as floats,
    [monthly_summary] returns normally, writes nothing to the file, and
    prints the report of exactly the records whose date text starts with
    the argument, in file order, with the total being the sum of their
    amounts. *)
Theorem monthly_summary_selects
    (w : world) (es : list expense) (ym : string) (xs : list spec_float) :
  file w = Some (table es) ->
  month_ok ym = true ->
  let sel := List.filter (fun e => Str.startswith (date e) ym) es in
  Forall2 (fun e x => Float.float (amount e) = Some x) sel xs ->
  monthly_summary ym w
  = (Return tt, set_stdout (stdout w +:+ monthly_report ym sel xs) w).
Proof.
  intros Hf Hm sel Hx. unfold monthly_summary.
  rewrite (bind_return _ _ _ _ _ (ensure_csv_present _ _ Hf)).
  rewrite Hm. rewrite bind_run. cbn [mret M_ret].
  rewrite (bind_return _ _ _ _ _ (read_rows_present _ _ Hf)).
  rewrite DictReader_table.
  rewrite (bind_return _ _ _ _ _ (select_month_table _ _ _)). fold sel.
  rewrite (bind_return _ _ _ _ _ (amounts_table _ _ _ Hx)).
  cbv zeta. rewrite bind_run, print_run. rewrite bind_run, print_run.
  rewrite bind_run, (monthly_lines _ _ _ Hx).
  rewrite bind_run, print_run, print_run.
  cbn [set_stdout stdout file stdin today].
  unfold monthly_report. rewrite !unlines_app, !unlines_cons2, !append_assoc.
  reflexivity.
Qed.

Lemma monthly_summary_selects_witness :
  let es := [Expense "2025-09-01" "Coffee" "food" "3.50";
             Expense "2025-09-15" "Rent" "rent" "1200.00";
             Expense "2025-08-01" "Book" "education" "20.00"] in
  let w := World (Some (table es)) "" [] "2025-09-20" in
  monthly_summary "2025-09" w
  = (Return tt,
     set_stdout
       (unlines ["📆 Monthly Summary for 2025-09"; rule 40;
                 "2025-09-01  Coffee  food  $3.50";
                 "2025-09-15  Rent  rent  $1200.00";
                 rule 40; "TOTAL: $1203.50"]) w).
Proof.
  intros es w.
  exact (monthly_summary_selects w es "2025-09"
           [S754_finite false 7881299347898368 (-51);
            S754_finite false 5277655813324800 (-42)]
           eq_refl eq_refl
           ltac:(repeat constructor)).
Defined.

(** ** Listing *)

Lemma list_lines (es : list expense) (xs : list spec_float) (t : spec_float) (w : world) :
  Forall2 (fun e x => Float.float (amount e) = Some x) es xs ->
  for_acc (dict_of <$> es) t (fun total r =>
      amt ← getitem r "amount" ≫= to_float;
      let total := Float.add total amt in
      date ← getitem r "date" ≫= as_str TypeError;
      description ← getitem r "description" ≫= as_str TypeError;
      category ← getitem r "category" ≫= as_str TypeError;
      print (Str.ljust 10 date +:+ "  " +:+ Str.ljust 28 (Str.prefix 28 description)
             +:+ "  " +:+ Str.ljust 14 (Str.prefix 14 category)
             +:+ "  $" +:+ Str.rjust 9 (Float.fmt2 amt)) ;;
      mret total) w
  = (Return (foldl Float.add t xs),
     set_stdout (stdout w +:+ unlines (zip_with list_line es xs)) w).
Proof.
  intros H. revert t w. induction H as [| e x es xs Hx _ IH]; intros t w.
  - cbn [fmap list_fmap for_acc zip_with unlines foldl mret M_ret].
    rewrite append_nil_r, set_stdout_same. reflexivity.
  - cbn [fmap list_fmap for_acc zip_with foldl]. rewrite bind_run.
    destruct (getitem_dict_of e w) as (H1 & H2 & H3 & H4).
    rewrite bind_run, (bind_return _ _ _ _ _ H4). cbn [to_float]. rewrite Hx.
    cbn [mret M_ret]. cbv zeta.
    rewrite bind_run, (bind_return _ _ _ _ _ H1). cbn [as_str mret M_ret].
    rewrite bind_run, (bind_return _ _ _ _ _ H2). cbn [as_str mret M_ret].
    rewrite bind_run, (bind_return _ _ _ _ _ H3). cbn [as_str mret M_ret].
    rewrite bind_run, print_run. cbn [mret M_ret]. rewrite IH.
    cbn [set_stdout stdout file stdin today].
    change (list_line e x :: zip_with list_line es xs)
      with ([list_line e x] ++ zip_with list_line es xs).
    rewrite unlines_app, append_assoc. reflexivity.
Qed.

(** A count of zero is no count: the two invocations are the same
    computation. *)
Lemma list_zero_is_no_limit (w : world) :
  list_expenses (Some 0) w = list_expenses None w
  /\ main ["list"; "0"] w = main ["list"] w.
Proof. split; reflexivity. Qed.

(** Without a count, every record of the table is listed. *)
Lemma list_expenses_all (w : world) (es : list expense) (xs : list spec_float) :
  file w = Some (table es) ->
  Forall2 (fun e x => Float.float (amount e) = Some x) es xs ->
  list_expenses None w = (Return tt, set_stdout (stdout w +:+ listing es xs) w).
Proof.
  intros Hf Hx. unfold list_expenses.
  rewrite (bind_return _ _ _ _ _ (ensure_csv_present _ _ Hf)).
  rewrite (bind_return _ _ _ _ _ (read_rows_present _ _ Hf)).
  rewrite DictReader_table. cbn [truthy]. cbv zeta.
  rewrite bind_run, print_run. rewrite bind_run, print_run. rewrite bind_run, print_run.
  rewrite bind_run, (list_lines _ _ _ _ Hx).
  rewrite bind_run, print_run, print_run.
  cbn [set_stdout stdout file stdin today].
  unfold listing, sum. rewrite !unlines_app, !unlines_cons2, !append_assoc.
  reflexivity.
Qed.

(** C10.  On a table whose amounts read as floats, [list 0] prints what
    [list] prints, and that is the listing of all the records, in file
    order, with their total. *)
Theorem list_zero_prints_all (w : world) (es : list expense) (xs : list spec_float) :
  file w = Some (table es) ->
  Forall2 (fun e x => Float.float (amount e) = Some x) es xs ->
  main ["list"; "0"] w = main ["list"] w
  /\ main ["list"; "0"] w = (Return tt, set_stdout (stdout w +:+ listing es xs) w).
Proof.
  intros Hf Hx. split; [apply list_zero_is_no_limit |].
  transitivity (list_expenses None w); [reflexivity |].
  exact (list_expenses_all w es xs Hf Hx).
Qed.

Lemma list_zero_prints_all_witness :
  let es := [Expense "2025-09-01" "Coffee" "food" "3.50";
             Expense "2025-09-15" "Rent" "rent" "1200.00"] in
  let w := World (Some (table es)) "" [] "2025-09-20" in
  main ["list"; "0"] w = main ["list"] w
  /\ main ["list"; "0"] w
     = (Return tt,
        set_stdout
          (unlines
             [rule 72;
              "DATE        DESCRIPTION                   CATEGORY            AMOUNT";
              rule 72;
              "2025-09-01  Coffee                        food            $     3.50";
              "2025-09-15  Rent                          rent            $  1200.00";
              rule 72;
              "TOTAL                                                     $  1203.50"])
          w).
Proof.
  intros es w.
  exact (list_zero_prints_all w es
           [S754_finite false 7881299347898368 (-51);
            S754_finite false 5277655813324800 (-42)]
           eq_refl ltac:(repeat constructor)).
Defined.

(** ** The argument-vector dispatcher *)

(** It is not so that [add] with any number of further arguments other
    than four shows the usage banner and leaves the store alone: with
    five further arguments the record is written. *)
Lemma add_with_extra_argument_is_dispatched :
  ~ (forall (args : list string) (w : world),
       head args = Some "add" ->
       length args <> 5%nat ->
       file (main args w).2 = file w
       /\ stdout (main args w).2 = stdout w +:+ usage_text +:+ newline).
Proof.
  intros H.
  destruct (H ["add"; "2025-09-01"; "Coffee"; "Food"; "3.5"; "extra"]
              (World None "" [] "2025-09-20") eq_refl ltac:(discriminate)) as [Hf _].
  vm_compute in Hf. discriminate Hf.
Qed.

(** C7, amended.  [add] followed by at least four arguments is
    dispatched: the first is validated as the date, the fourth is parsed
    as the amount, and the record is appended; arguments beyond the fourth
    are ignored.  [add] followed by fewer than four arguments prints the
    usage banner and leaves the file as it was. *)
Theorem main_add_arity (w : world) (rest : list string) :
  main ("add" :: rest) w =
  if (4 <=? length rest)%nat then
    (date ← valid_date (arg rest 0);
     amount ← parse_amount (arg rest 3);
     add_expense date (arg rest 1) (Str.lower (arg rest 2)) amount) w
  else (Return tt, set_stdout (stdout w +:+ usage_text +:+ newline) w).
Proof.
  destruct rest as [| a [| b [| c [| d extra]]]]; reflexivity.
Qed.

(** C9.  [delete] with an argument [int] does not read, such as
    [delete abc]: the conversion raises [ValueError], which nothing
    catches; the program ends by the exception, having printed nothing. *)
Theorem main_delete_non_integer (w : world) (s : string) :
  PyInt.int s = None ->
  main ["delete"; s] w = (Raised ValueError, w).
Proof.
  intros H.
  change (main ["delete"; s] w) with ((to_int s ≫= delete_expense) w).
  unfold to_int. rewrite H. reflexivity.
Qed.

Lemma main_delete_non_integer_witness :
  let w := World (Some (table [Expense "2025-09-01" "Coffee" "food" "3.50"]))
                 "" [] "2025-09-20" in
  main ["delete"; "abc"] w = (Raised ValueError, w).
Proof.
  intros w. exact (main_delete_non_integer w "abc" eq_refl).
Defined.

(** ** Two decimal places

    For every float other than the infinities and NaN, [f"{x:.2f}"] has
    exactly two decimal places. *)

Lemma string_of_uint_digits (d : Decimal.uint) :
  Str.all Str.isdecimal (NilEmpty.string_of_uint d) = true.
Proof.
  induction d as [| d IH | d IH | d IH | d IH | d IH | d IH | d IH | d IH | d IH | d IH];
    [reflexivity | ..];
    cbn [NilEmpty.string_of_uint Str.all]; rewrite IH; reflexivity.
Qed.

Lemma str_nonneg (n : Z) :
  0 <= n -> PyInt.str n <> "" /\ Str.all Str.isdecimal (PyInt.str n) = true.
Proof.
  intros Hn. destruct n as [| p | p]; [split; [discriminate | reflexivity] | | lia].
  unfold PyInt.str. cbn [Z.to_int NilZero.string_of_int]. unfold NilZero.string_of_uint.
  pose proof (string_of_uint_digits (Pos.to_uint p)) as Hd.
  pose proof (Unsigned.to_uint_nonnil p) as Hnil.
  destruct (Pos.to_uint p); [contradiction | ..]; (split; [discriminate | exact Hd]).
Qed.

Lemma isdecimal_chr (d : Z) : 0 <= d <= 9 -> Str.isdecimal (Str.chr (48 + d)) = true.
Proof.
  intros H.
  assert (d = 0 \/ d = 1 \/ d = 2 \/ d = 3 \/ d = 4 \/ d = 5 \/ d = 6 \/ d = 7
          \/ d = 8 \/ d = 9) as Hd by lia.
  repeat (destruct Hd as [-> | Hd]; [reflexivity |]). subst d. reflexivity.
Qed.

Lemma cents_nonneg (m : positive) (e : Z) : 0 <= Float.cents m e.
Proof.
  unfold Float.cents. destruct (0 <=? e) eqn:He.
  - apply Z.leb_le in He. apply Z.mul_nonneg_nonneg; [lia |].
    apply Z.pow_nonneg. lia.
  - apply Z.leb_gt in He.
    assert (0 < 2 ^ (- e)) as Hden by (apply Z.pow_pos_nonneg; lia).
    assert (0 <= Z.pos m * 100 / 2 ^ (- e)) as Hq by (apply Z.div_pos; lia).
    cbv zeta. destruct (_ ?= _); [destruct (Z.even _) | |]; lia.
Qed.

Lemma digits_point_two_app (ds : string) (seen : bool) (a b : ascii) :
  Str.all Str.isdecimal ds = true ->
  seen = true \/ ds <> "" ->
  Str.isdecimal a = true -> Str.isdecimal b = true ->
  digits_point_two (ds +:+ "." +:+ String a (String b "")) seen = true.
Proof.
  intros Hds Hseen Ha Hb. revert seen Hseen.
  induction ds as [| c r IH]; intros seen Hseen.
  - destruct Hseen as [-> | Hne]; [| contradiction].
    change (("" +:+ "." +:+ String a (String b ""))) with (String "." (String a (String b ""))).
    cbn [digits_point_two]. rewrite Ha, Hb. reflexivity.
  - cbn [Str.all] in Hds. apply andb_true_iff in Hds as [Hc Hr].
    change (String c r +:+ "." +:+ String a (String b ""))
      with (String c (r +:+ "." +:+ String a (String b ""))).
    cbn [digits_point_two]. rewrite Hc. apply IH; [exact Hr | left; reflexivity].
Qed.

Lemma two_decimals_digit_head (c : ascii) (r : string) :
  Str.isdecimal c = true ->
  two_decimals (String c r) = digits_point_two (String c r) false.
Proof.
  destruct c as [[] [] [] [] [] [] [] []]; intros H; try discriminate H; reflexivity.
Qed.

(** [fixed2] writes digits, a point and two digits. *)
Lemma fixed2_money (neg : bool) (c : Z) :
  0 <= c ->
  exists (ds : string) (a b : ascii),
    Float.fixed2 neg c = money neg ds a b
    /\ ds <> "" /\ Str.all Str.isdecimal ds = true
    /\ Str.isdecimal a = true /\ Str.isdecimal b = true.
Proof.
  intros Hc.
  destruct (str_nonneg (c / 100) ltac:(apply Z.div_pos; lia)) as [Hne Hall].
  assert (0 <= c mod 100 < 100) as Hm by (apply Z.mod_pos_bound; lia).
  exists (PyInt.str (c / 100)), (Str.chr (48 + c mod 100 / 10)),
         (Str.chr (48 + (c mod 100) mod 10)).
  split; [reflexivity |]. split; [exact Hne |]. split; [exact Hall |].
  split; apply isdecimal_chr.
  - split; [apply Z.div_pos; lia |].
    apply Z.lt_succ_r. apply Z.div_lt_upper_bound; lia.
  - pose proof (Z.mod_pos_bound (c mod 100) 10). lia.
Qed.

Lemma two_decimals_money (neg : bool) (ds : string) (a b : ascii) :
  ds <> "" -> Str.all Str.isdecimal ds = true ->
  Str.isdecimal a = true -> Str.isdecimal b = true ->
  two_decimals (money neg ds a b) = true.
Proof.
  intros Hne Hall Ha Hb.
  pose proof (digits_point_two_app _ false _ _ Hall (or_intror Hne) Ha Hb) as H.
  unfold money. destruct neg; [exact H |].
  change ("" +:+ ds +:+ "." +:+ String a (String b ""))
    with (ds +:+ "." +:+ String a (String b "")).
  destruct ds as [| d r]; [contradiction |].
  cbn [Str.all] in Hall. apply andb_true_iff in Hall as [Hd _].
  change (String d r +:+ "." +:+ String a (String b ""))
    with (String d (r +:+ "." +:+ String a (String b ""))) in *.
  rewrite (two_decimals_digit_head _ _ Hd). exact H.
Qed.

Lemma fmt2_two_decimals (x : spec_float) :
  finite x = true -> two_decimals (Float.fmt2 x) = true.
Proof.
  destruct x as [s | s | | s m e]; intros H; try discriminate H; cbn [Float.fmt2].
  - destruct (fixed2_money s 0 ltac:(lia)) as (ds & a & b & -> & H1 & H2 & H3 & H4).
    exact (two_decimals_money s ds a b H1 H2 H3 H4).
  - destruct (fixed2_money s _ (cents_nonneg m e)) as (ds & a & b & -> & H1 & H2 & H3 & H4).
    exact (two_decimals_money s ds a b H1 H2 H3 H4).
Qed.

(** ** Amounts written are amounts read

    Whatever [f"{x:.2f}"] writes, [float] reads: the amounts of a file
    the program has written never make [list] or [monthly] fail. *)

Lemma srev_onto_app (s acc : string) : Str.srev_onto s acc = Str.srev s +:+ acc.
Proof.
  unfold Str.srev. revert acc. induction s as [| c r IH]; intros acc; [reflexivity |].
  cbn [Str.srev_onto]. rewrite (IH (String c acc)), (IH (String c "")).
  rewrite append_assoc. reflexivity.
Qed.

Lemma srev_cons (s : string) (c : ascii) :
  Str.srev (String c s) = Str.srev s +:+ String c "".
Proof. unfold Str.srev. cbn [Str.srev_onto]. apply srev_onto_app. Qed.

Lemma srev_snoc (s : string) (c : ascii) :
  Str.srev (s +:+ String c "") = String c (Str.srev s).
Proof.
  induction s as [| a r IH]; [reflexivity |].
  change (String a r +:+ String c "") with (String a (r +:+ String c "")).
  rewrite !srev_cons, IH. reflexivity.
Qed.

Lemma srev_involutive (s : string) : Str.srev (Str.srev s) = s.
Proof.
  induction s as [| a r IH]; [reflexivity |].
  rewrite srev_cons, srev_snoc, IH. reflexivity.
Qed.

Lemma rstrip_snoc (p : ascii -> bool) (s : string) (c : ascii) :
  p c = false -> Str.rstrip_by p (s +:+ String c "") = s +:+ String c "".
Proof.
  intros H. unfold Str.rstrip_by. rewrite srev_snoc. cbn [Str.drop_while]. rewrite H.
  rewrite srev_cons, srev_involutive. reflexivity.
Qed.

(** What a decimal digit is not. *)
Lemma isdecimal_plain (c : ascii) :
  Str.isdecimal c = true ->
  PyInt.isspace c = false /\ Ascii.eqb c "_" = false /\ Ascii.eqb c "-" = false
  /\ Ascii.eqb c "+" = false /\ Ascii.eqb c "." = false.
Proof.
  destruct c as [[] [] [] [] [] [] [] []]; intros H; try discriminate H;
    repeat split; reflexivity.
Qed.

Lemma strip_underscores_none (s : string) (prev : ascii) :
  Str.all (fun c => negb (Ascii.eqb c "_")) s = true ->
  Ascii.eqb prev "_" = false ->
  Float.strip_underscores s prev = Some s.
Proof.
  revert prev. induction s as [| c r IH]; intros prev Hs Hp.
  - cbn. rewrite Hp. reflexivity.
  - cbn [Str.all] in Hs. apply andb_true_iff in Hs as [Hc Hr].
    apply negb_true_iff in Hc. cbn [Float.strip_underscores].
    rewrite Hc, Hp. cbn [andb]. rewrite (IH c Hr Hc). reflexivity.
Qed.

Lemma all_app (p : ascii -> bool) (a b : string) :
  Str.all p (a +:+ b) = Str.all p a && Str.all p b.
Proof.
  induction a as [| c r IH]; [reflexivity |].
  change (String c r +:+ b) with (String c (r +:+ b)). cbn [Str.all].
  rewrite IH, andb_assoc. reflexivity.
Qed.

Lemma all_impl (p q : ascii -> bool) (s : string) :
  (forall c, p c = true -> q c = true) -> Str.all p s = true -> Str.all q s = true.
Proof.
  intros H. induction s as [| c r IH]; [reflexivity |].
  cbn [Str.all]. intros Hs. apply andb_true_iff in Hs as [Hc Hr].
  rewrite (H c Hc), (IH Hr). reflexivity.
Qed.

Lemma digit_run_digits (ds rest : string) (acc n : Z) :
  Str.all Str.isdecimal ds = true ->
  match rest with String c _ => Str.isdecimal c = false | EmptyString => True end ->
  exists v, Float.digit_run (ds +:+ rest) acc n = (v, n + Z.of_nat (String.length ds), rest).
Proof.
  intros Hd Hrest. revert acc n.
  induction ds as [| c r IH]; intros acc n.
  - change ("" +:+ rest) with rest. exists acc.
    destruct rest as [| c r]; cbn [Float.digit_run String.length];
      [| rewrite Hrest]; f_equal; f_equal; lia.
  - cbn [Str.all] in Hd. apply andb_true_iff in Hd as [Hc Hr].
    change (String c r +:+ rest) with (String c (r +:+ rest)).
    cbn [Float.digit_run]. rewrite Hc.
    destruct (IH Hr (10 * acc + PyInt.digit_value c) (n + 1)) as [v Hv].
    exists v. rewrite Hv. cbn [String.length]. f_equal. f_equal. lia.
Qed.

Lemma float_money (neg : bool) (ds : string) (a b : ascii) :
  ds <> "" -> Str.all Str.isdecimal ds = true ->
  Str.isdecimal a = true -> Str.isdecimal b = true ->
  is_Some (Float.float (money neg ds a b)).
Proof.
  intros Hne Hds Ha Hb.
  destruct (isdecimal_plain a Ha) as (_ & Ha_ & _).
  destruct (isdecimal_plain b Hb) as (Hbs & Hb_ & _).
  set (body := ds +:+ "." +:+ String a (String b "")).
  assert (Hbody : Str.all (fun c => negb (Ascii.eqb c "_")) body = true).
  { unfold body. rewrite all_app. apply andb_true_iff. split.
    - apply (all_impl Str.isdecimal); [| exact Hds].
      intros c Hc. destruct (isdecimal_plain c Hc) as (_ & -> & _). reflexivity.
    - change ("." +:+ String a (String b "")) with (String "." (String a (String b ""))).
      cbn [Str.all]. rewrite Ha_, Hb_. reflexivity. }
  assert (Hlit : is_Some (Float.decimal_literal neg body)).
  { unfold Float.decimal_literal, body.
    destruct (digit_run_digits ds ("." +:+ String a (String b "")) 0 0 Hds eq_refl) as [ip Hip].
    rewrite Hip. change ("." +:+ String a (String b "")) with (String "." (String a (String b ""))).
    cbn [Float.digit_run]. rewrite Ha, Hb.
    destruct (0 + Z.of_nat (String.length ds) + (0 + 1 + 1) =? 0) eqn:E; [apply Z.eqb_eq in E; lia |].
    cbn. eexists. reflexivity. }
  destruct Hlit as [x Hx].
  assert (Hstrip : Str.rstrip_by PyInt.isspace (Str.lstrip_by PyInt.isspace (money neg ds a b))
                   = money neg ds a b).
  { assert (Hl : Str.lstrip_by PyInt.isspace (money neg ds a b) = money neg ds a b).
    { unfold money, Str.lstrip_by. destruct neg; [reflexivity |].
      destruct ds as [| d r]; [contradiction |].
      cbn [Str.all] in Hds. apply andb_true_iff in Hds as [Hd _].
      destruct (isdecimal_plain d Hd) as (Hsp & _).
      change ("" +:+ String d r +:+ "." +:+ String a (String b ""))
        with (String d (r +:+ "." +:+ String a (String b ""))).
      cbn [Str.drop_while]. rewrite Hsp. reflexivity. }
    rewrite Hl. unfold money.
    replace ((if neg then "-" else "") +:+ ds +:+ "." +:+ String a (String b ""))
      with (((if neg then "-" else "") +:+ ds +:+ "." +:+ String a "") +:+ String b "").
    - apply rstrip_snoc. exact Hbs.
    - rewrite !append_assoc. reflexivity. }
  unfold Float.float. rewrite Hstrip.
  assert (Hu : Float.strip_underscores (money neg ds a b) Ascii.zero = Some (money neg ds a b)).
  { apply strip_underscores_none; [| reflexivity].
    unfold money. fold body. destruct neg; [| exact Hbody].
    change ("-" +:+ body) with (String "-" body). cbn [Str.all]. rewrite Hbody. reflexivity. }
  rewrite Hu. cbn [mbind option_bind].
  unfold Float.signed_literal, money. fold body. destruct neg.
  - change ("-" +:+ body) with (String "-" body). cbv iota beta. rewrite Hx. eexists; reflexivity.
  - change ("" +:+ body) with body.
    assert (Hb' : exists d r, body = String d r /\ Str.isdecimal d = true).
    { unfold body. destruct ds as [| d r]; [contradiction |].
      cbn [Str.all] in Hds. apply andb_true_iff in Hds as [Hd _].
      exists d, (r +:+ "." +:+ String a (String b "")). split; [reflexivity | exact Hd]. }
    destruct Hb' as (d & r & Hbd & Hd). 
    assert (Hm : (let '(neg, r0) := match body with
                     | String "-" t => (true, t)
                     | String "+" t => (false, t)
                     | _ => (false, body) end in
                  match Float.decimal_literal neg r0 with
                  | Some x0 => Some x0
                  | None => Float.inf_or_nan neg r0 end)
                 = match Float.decimal_literal false body with
                   | Some x0 => Some x0
                   | None => Float.inf_or_nan false body end).
    { rewrite Hbd. clear -Hd. destruct d as [[] [] [] [] [] [] [] []]; try discriminate Hd; reflexivity. }
    rewrite Hm, Hx. eexists; reflexivity.
Qed.

Lemma float_fmt2 (x : spec_float) : is_Some (Float.float (Float.fmt2 x)).
Proof.
  destruct x as [s | s | | s m e]; cbn [Float.fmt2].
  - destruct (fixed2_money s 0 ltac:(lia)) as (ds & a & b & -> & H1 & H2 & H3 & H4).
    exact (float_money s ds a b H1 H2 H3 H4).
  - destruct s; eexists; reflexivity.
  - eexists; reflexivity.
  - destruct (fixed2_money s _ (cents_nonneg m e)) as (ds & a & b & -> & H1 & H2 & H3 & H4).
    exact (float_money s ds a b H1 H2 H3 H4).
Qed.

Lemma written_amounts_read (es : list expense) :
  Forall written es ->
  exists xs, Forall2 (fun e x => Float.float (amount e) = Some x) es xs.
Proof.
  induction 1 as [| e es [x Hx] _ [xs IH]]; [exists []; constructor |].
  destruct (float_fmt2 x) as [y Hy].
  exists (y :: xs). constructor; [rewrite Hx; exact Hy | exact IH].
Qed.

(** ** Adding a record *)

Lemma lower_char_idem (c : ascii) : Str.lower_char (Str.lower_char c) = Str.lower_char c.
Proof. destruct c as [[] [] [] [] [] [] [] []]; reflexivity. Qed.

Lemma lower_idem (s : string) : Str.lower (Str.lower s) = Str.lower s.
Proof.
  induction s as [| c r IH]; [reflexivity |].
  unfold Str.lower in *. cbn [Str.smap]. rewrite lower_char_idem, IH. reflexivity.
Qed.

Lemma table_snoc (es : list expense) (e : expense) :
  table es ++ [row_of e] = table (es ++ [e]).
Proof. unfold table. rewrite fmap_app. reflexivity. Qed.

(** On a table, [add] with a date [strptime] accepts and an amount text
    [float] reads appends one record: the date and the description as
    given, the category in lower case, the amount as [f"{x:.2f}"] of the
    rounded value. *)
Lemma main_add_appends (w : world) (es : list expense) (d desc c a : string)
    (x : spec_float) :
  file w = Some (table es) ->
  is_Some (Datetime.strptime d) ->
  Float.float a = Some x ->
  let e := Expense d desc (Str.lower c) (Float.fmt2 (Float.round2 x)) in
  main ["add"; d; desc; c; a] w
  = (Return tt,
     World (Some (table (es ++ [e])))
           (stdout w +:+
            (" Added: " +:+ d +:+ " | " +:+ desc +:+ " | " +:+ Str.lower c
             +:+ " | $" +:+ Float.fmt2 (Float.round2 x)) +:+ newline)
           (stdin w) (today w)).
Proof.
  intros Hf [ymd Hd] Ha e.
  change (main ["add"; d; desc; c; a] w)
    with ((date ← valid_date d; amount ← parse_amount a;
           add_expense date desc (Str.lower c) amount) w).
  unfold valid_date. rewrite Hd. rewrite bind_run. cbn [mret M_ret].
  unfold parse_amount. rewrite Ha. rewrite bind_run. cbn [mret M_ret].
  unfold add_expense.
  rewrite (bind_return _ _ _ _ _ (ensure_csv_present _ _ Hf)).
  rewrite bind_run. unfold writerow at 1. rewrite Hf. cbn [default].
  rewrite lower_idem. fold e.
  change [d; desc; Str.lower c; Float.fmt2 (Float.round2 x)] with (row_of e).
  rewrite <- table_snoc. reflexivity.
Qed.

(** The record just added is the last one the reader yields, with the
    four fields as written. *)
Lemma read_back_last (es : list expense) (e : expense) :
  last (Csv.DictReader (table (es ++ [e]))) = Some (dict_of e).
Proof. rewrite DictReader_table, fmap_app. apply last_snoc. Qed.

(** Both operations keep the amounts on file at two decimal places, as
    long as the amount added is neither an infinity nor NaN. *)
Lemma add_keeps_two_decimals (w : world) (es : list expense) (d desc c a : string)
    (x : spec_float) :
  file w = Some (table es) ->
  is_Some (Datetime.strptime d) ->
  Float.float a = Some x ->
  finite (Float.round2 x) = true ->
  forallb two_decimals (amount <$> es) = true ->
  exists es', file (main ["add"; d; desc; c; a] w).2 = Some (table es')
              /\ forallb two_decimals (amount <$> es') = true.
Proof.
  intros Hf Hd Ha Hfin Hes. eexists. rewrite (main_add_appends w es d desc c a x Hf Hd Ha).
  split; [reflexivity |].
  rewrite fmap_app, forallb_app, Hes. cbn.
  rewrite (fmt2_two_decimals _ Hfin). reflexivity.
Qed.

Lemma delete_keeps_two_decimals (w : world) (before after : list expense) (e : expense) :
  file w = Some (table (before ++ e :: after)) ->
  forallb two_decimals (amount <$> before ++ e :: after) = true ->
  exists es', file (delete_expense (Z.of_nat (length before) + 1) w).2 = Some (table es')
              /\ forallb two_decimals (amount <$> es') = true.
Proof.
  intros Hf Hes. eexists. rewrite (delete_expense_middle w before after e Hf).
  split; [reflexivity |].
  rewrite fmap_app, forallb_app in *. rewrite fmap_cons in Hes. cbn [forallb] in Hes.
  apply andb_true_iff in Hes as [H1 H2]. apply andb_true_iff in H2 as [_ H2].
  rewrite H1, H2. reflexivity.
Qed.

(** ** The stores the program reaches

    From no file at all, [add] and [delete] only ever produce tables
    whose amounts the program wrote: the tables of the properties above
    are all the stores there are. *)

Lemma add_expense_file (d desc c : string) (x : spec_float) (w : world) :
  file (add_expense d desc c x w).2
  = Some (default [header] (file w) ++ [[d; desc; Str.lower c; Float.fmt2 x]]).
Proof. destruct w as [[rows |] o i t]; reflexivity. Qed.

Lemma add_expense_well_formed (d desc c : string) (x : spec_float) (w : world) :
  well_formed (file w) -> well_formed (file (add_expense d desc c x w).2).
Proof.
  intros Hw. right. rewrite add_expense_file.
  set (e := Expense d desc (Str.lower c) (Float.fmt2 x)).
  assert (He : written e) by (exists x; reflexivity).
  destruct Hw as [-> | (es & -> & Hes)].
  - exists [e]. split; [reflexivity | constructor; [exact He | constructor]].
  - exists (es ++ [e]). split; [f_equal; apply (table_snoc es e) |].
    apply Forall_app. split; [exact Hes | constructor; [exact He | constructor]].
Qed.

Lemma delete_expense_absent (k : Z) (w : world) :
  file w = None -> delete_expense k w = delete_expense k (set_file (Some [header]) w).
Proof. destruct w as [f o i t]. cbn. intros ->. reflexivity. Qed.

Lemma delete_expense_well_formed (k : Z) (w : world) :
  well_formed (file w) -> well_formed (file (delete_expense k w).2).
Proof.
  intros [Hf | (es & Hf & Hes)]; right.
  - exists []. split; [| constructor].
    rewrite (delete_expense_absent k w Hf).
    rewrite (delete_expense_rejects (set_file (Some [header]) w) [header] k eq_refl);
      [reflexivity |].
    cbn. lia.
  - destruct (Z.ltb_spec k 1) as [Hlo | Hlo];
      [| destruct (Z.ltb_spec (Z.of_nat (length es)) k) as [Hhi | Hhi]].
    + exists es. split; [| exact Hes].
      rewrite (delete_expense_rejects w _ k Hf); [exact Hf |].
      left. exact Hlo.
    + exists es. split; [| exact Hes].
      rewrite (delete_expense_rejects w _ k Hf); [exact Hf |].
      right. rewrite DictReader_table, length_fmap. exact Hhi.
    + destruct (lookup_lt_is_Some_2 es (Z.to_nat (k - 1)) ltac:(lia)) as [e He].
      pose proof (take_drop_middle es _ e He) as Hsplit.
      exists (take (Z.to_nat (k - 1)) es ++ drop (S (Z.to_nat (k - 1))) es).
      split.
      * rewrite <- Hsplit in Hf.
        pose proof (delete_expense_middle w _ _ e Hf) as Hd. cbv zeta in Hd.
        rewrite length_take in Hd.
        replace (Z.of_nat (Z.to_nat (k - 1) `min` length es) + 1) with k in Hd by lia.
        rewrite Hd. reflexivity.
      * apply Forall_app. split; [apply Forall_take | apply Forall_drop]; exact Hes.
Qed.

(** Every store the program reaches is well formed. *)
Lemma reachable_well_formed (f : option (list (list string))) :
  reachable f -> well_formed f.
Proof.
  induction 1 as [| w args _ IH Hcmd]; [left; reflexivity |].
  destruct args as [| cmd rest]; [destruct Hcmd; discriminate |].
  destruct Hcmd as [Hc | Hc]; injection Hc as ->.
  - destruct rest as [| d [| desc [| c [| a extra]]]]; try exact IH.
    change (main ("add" :: d :: desc :: c :: a :: extra) w)
      with ((date ← valid_date d; amount ← parse_amount a;
             add_expense date desc (Str.lower c) amount) w).
    rewrite bind_run. unfold valid_date.
    destruct (Datetime.strptime d); [| exact IH].
    cbn [mret M_ret]. rewrite bind_run. unfold parse_amount.
    destruct (Float.float a); [| exact IH].
    cbn [mret M_ret]. apply add_expense_well_formed. exact IH.
  - destruct rest as [| s [| t rest]]; try exact IH.
    change (main ["delete"; s] w) with ((to_int s ≫= delete_expense) w).
    rewrite bind_run. unfold to_int. destruct (PyInt.int s); [| exact IH].
    cbn [mret M_ret]. apply delete_expense_well_formed. exact IH.
Qed.

(** On every reachable store, [list] and [monthly] find amounts they can
    read. *)
Lemma reachable_amounts_read (rows : list (list string)) :
  reachable (Some rows) ->
  exists es xs, rows = table es
                /\ Forall2 (fun e x => Float.float (amount e) = Some x) es xs.
Proof.
  intros H. destruct (reachable_well_formed _ H) as [Hn | (es & Hes & Hw)];
    [discriminate |].
  injection Hes as ->. destruct (written_amounts_read es Hw) as [xs Hxs].
  exists es, xs. split; [reflexivity | exact Hxs].
Qed.

(** ** Amounts on file *)

(** C6.  The amount [inf] passes [parse_amount]; the record [add]
    appends to a table, and the reader yields back as the last one, has
    the date and the description as given and the category in lower
    case, but the amount text [inf], which has no decimal places. *)
Theorem add_infinite_amount_roundtrip (w : world) (es : list expense) :
  file w = Some (table es) ->
  let w' := (main ["add"; "2025-09-01"; "Gift"; "Misc"; "inf"] w).2 in
  let e := Expense "2025-09-01" "Gift" "misc" "inf" in
  file w' = Some (table (es ++ [e]))
  /\ last (Csv.DictReader (table (es ++ [e]))) = Some (dict_of e)
  /\ dict_of e !! "amount" = Some (PyStr "inf")
  /\ two_decimals "inf" = false.
Proof.
  intros Hf w' e. subst w'.
  rewrite (main_add_appends w es "2025-09-01" "Gift" "Misc" "inf"
             (S754_infinity false) Hf ltac:(eexists; reflexivity) eq_refl).
  repeat split. apply read_back_last.
Qed.

Lemma add_infinite_amount_roundtrip_witness :
  let w := World (Some (table [Expense "2025-09-01" "Coffee" "food" "3.50"]))
                 "" [] "2025-09-20" in
  file (main ["add"; "2025-09-01"; "Gift"; "Misc"; "inf"] w).2
  = Some (table [Expense "2025-09-01" "Coffee" "food" "3.50";
                 Expense "2025-09-01" "Gift" "misc" "inf"])
  /\ two_decimals "inf" = false.
Proof.
  intros w.
  destruct (add_infinite_amount_roundtrip w _ eq_refl) as (H1 & _ & _ & H4).
  split; [exact H1 | exact H4].
Defined.

(** C8.  A store reached by one [add] whose amount column holds [nan]. *)
Theorem reachable_store_with_unformatted_amount :
  exists rows : list (list string),
    reachable (Some rows)
    /\ amount_column rows = ["nan"]
    /\ forallb two_decimals (amount_column rows) = false.
Proof.
  exists (table [Expense "2025-09-01" "Gift" "misc" "nan"]).
  split; [| split; reflexivity].
  exact (reach_step (World None "" [] "2025-09-20")
           ["add"; "2025-09-01"; "Gift"; "Misc"; "nan"] reach_init (or_introl eq_refl)).
Qed.

(** ** The loop has fuel enough

    No computation of the program adds lines to the input, and every pass
    of the loop reads one; so [S (length (stdin w))] passes reach the end
    of the loop. *)

Create HintDb stdin_le.

Lemma stdin_le_ret {A} (a : A) : stdin_le (mret a : M A).
Proof. intros w. cbn. lia. Qed.

Lemma stdin_le_bind {A B} (m : M A) (k : A -> M B) :
  stdin_le m -> (forall a, stdin_le (k a)) -> stdin_le (m ≫= k).
Proof.
  intros Hm Hk w. rewrite bind_run. specialize (Hm w).
  destruct (m w) as [[a | c | e] w']; cbn in *; [| lia | lia].
  specialize (Hk a w'). lia.
Qed.

Lemma stdin_le_print (s : string) : stdin_le (print s).
Proof. intros w. cbn. lia. Qed.

Lemma stdin_le_input (p : string) : stdin_le (input p).
Proof. intros [f o [| l ls] t]; cbn; lia. Qed.

Lemma stdin_le_raise {A} (e : exn) : stdin_le (raise e : M A).
Proof. intros w. cbn. lia. Qed.

Lemma stdin_le_sys_exit {A} (c : Z) : stdin_le (sys_exit c : M A).
Proof. intros w. cbn. lia. Qed.

Lemma stdin_le_writerow (r : list string) : stdin_le (writerow r).
Proof. intros w. cbn. lia. Qed.

Lemma stdin_le_open_w : stdin_le open_w.
Proof. intros w. cbn. lia. Qed.

Lemma stdin_le_read_file : stdin_le read_file.
Proof. intros w. cbn. lia. Qed.

Lemma stdin_le_get_today : stdin_le get_today.
Proof. intros w. cbn. lia. Qed.

#[local] Hint Resolve stdin_le_ret stdin_le_print stdin_le_input stdin_le_raise
  stdin_le_sys_exit stdin_le_writerow stdin_le_open_w stdin_le_read_file
  stdin_le_get_today : stdin_le.

(** Splits a computation along its binds and its case distinctions. *)
Ltac stdin_le_step :=
  match goal with
  | |- stdin_le (_ ≫= _) => apply stdin_le_bind; [| intros]
  | |- stdin_le (if ?b then _ else _) => destruct b
  | |- stdin_le (match ?x with _ => _ end) => destruct x
  | |- stdin_le (let '(_, _) := ?x in _) => destruct x
  | |- stdin_le _ => solve [auto with stdin_le]
  end.

Ltac stdin_le_auto := repeat stdin_le_step.

Lemma stdin_le_ensure_csv : stdin_le ensure_csv.
Proof. intros [[rows |] o i t]; apply Nat.le_refl. Qed.
#[local] Hint Resolve stdin_le_ensure_csv : stdin_le.

Lemma stdin_le_getitem (r : gmap string value) (k : string) : stdin_le (getitem r k).
Proof. unfold getitem. stdin_le_auto. Qed.

Lemma stdin_le_as_str (e : exn) (v : value) : stdin_le (as_str e v).
Proof. unfold as_str. stdin_le_auto. Qed.

Lemma stdin_le_to_float (v : value) : stdin_le (to_float v).
Proof. unfold to_float. stdin_le_auto. Qed.

Lemma stdin_le_to_int (s : string) : stdin_le (to_int s).
Proof. unfold to_int. stdin_le_auto. Qed.
#[local] Hint Resolve stdin_le_getitem stdin_le_as_str stdin_le_to_float
  stdin_le_to_int : stdin_le.

Lemma stdin_le_for_ {A} (xs : list A) (body : A -> M unit) :
  (forall x, stdin_le (body x)) -> stdin_le (for_ xs body).
Proof. intros H. induction xs; cbn [for_]; stdin_le_auto. Qed.

Lemma stdin_le_for_acc {A S} (xs : list A) (s : S) (body : S -> A -> M S) :
  (forall s x, stdin_le (body s x)) -> stdin_le (for_acc xs s body).
Proof. intros H. revert s. induction xs; intros s; cbn [for_acc]; stdin_le_auto. Qed.

Lemma stdin_le_read_rows : stdin_le read_rows.
Proof. unfold read_rows. stdin_le_auto. Qed.
#[local] Hint Resolve stdin_le_read_rows : stdin_le.

Lemma stdin_le_select_month (ym : string) (rows : list (gmap string value)) :
  stdin_le (select_month ym rows).
Proof. induction rows; cbn [select_month]; stdin_le_auto. Qed.

Lemma stdin_le_amounts (rows : list (gmap string value)) : stdin_le (amounts rows).
Proof. induction rows; cbn [amounts]; stdin_le_auto. Qed.
#[local] Hint Resolve stdin_le_select_month stdin_le_amounts : stdin_le.

Lemma stdin_le_add_expense (d desc c : string) (x : spec_float) :
  stdin_le (add_expense d desc c x).
Proof. unfold add_expense. stdin_le_auto. Qed.

Lemma stdin_le_list_expenses (limit : option Z) : stdin_le (list_expenses limit).
Proof.
  unfold list_expenses. stdin_le_auto.
  apply stdin_le_for_acc. intros. stdin_le_auto.
Qed.

Lemma stdin_le_category_summary : stdin_le category_summary.
Proof.
  unfold category_summary. stdin_le_auto.
  - apply stdin_le_for_acc. intros. stdin_le_auto.
  - apply stdin_le_for_. intros [cat total]. stdin_le_auto.
Qed.

Lemma stdin_le_monthly_summary (ym : string) : stdin_le (monthly_summary ym).
Proof.
  unfold monthly_summary. stdin_le_auto.
  apply stdin_le_for_. intros. stdin_le_auto.
Qed.

Lemma stdin_le_list_categories : stdin_le list_categories.
Proof.
  unfold list_categories. stdin_le_auto.
Qed.

Lemma stdin_le_delete_expense (k : Z) : stdin_le (delete_expense k).
Proof.
  unfold delete_expense. stdin_le_auto.
  apply stdin_le_for_. intros. stdin_le_auto.
Qed.

Lemma stdin_le_interactive_add : stdin_le interactive_add.
Proof.
  unfold interactive_add. stdin_le_auto; apply stdin_le_add_expense.
Qed.

Lemma stdin_le_list_limit (parts : list string) : stdin_le (list_limit parts).
Proof. unfold list_limit. stdin_le_auto. Qed.

#[local] Hint Resolve stdin_le_add_expense stdin_le_list_expenses
  stdin_le_category_summary stdin_le_monthly_summary stdin_le_list_categories
  stdin_le_delete_expense stdin_le_interactive_add stdin_le_list_limit : stdin_le.

Lemma stdin_le_interactive_command (cmd : string) : stdin_le (interactive_command cmd).
Proof. unfold interactive_command. stdin_le_auto. Qed.

Lemma interactive_loop_total (fuel : nat) (w : world) :
  (length (stdin w) < fuel)%nat -> is_Some (interactive_loop fuel w).
Proof.
  revert w. induction fuel as [| fuel IH]; intros w Hlt; [lia |].
  cbn [interactive_loop]. unfold input.
  destruct (stdin w) as [| line ls] eqn:E; [eexists; reflexivity |].
  destruct (_ || _); [eexists; reflexivity |].
  pose proof (stdin_le_interactive_command (Str.lower (Str.strip line))
                (set_stdin ls (set_stdout (stdout w +:+ "> ") w))) as Hle.
  destruct (interactive_command _ _) as [[[] | c | e] w2];
    [| eexists; reflexivity | eexists; reflexivity].
  apply IH. cbn in Hle, Hlt. lia.
Qed.

(** [interactive_while] is the loop run to its end. *)
Lemma interactive_while_runs (w : world) :
  interactive_loop (S (length (stdin w))) w = Some (interactive_while w).
Proof.
  unfold interactive_while.
  destruct (interactive_loop_total (S (length (stdin w))) w ltac:(lia)) as [r Hr].
  rewrite Hr. reflexivity.
Qed.

(** ** The interactive loop *)

(** In the [add] branch a date that does not parse, and an amount that
    does not parse, end the command only: it returns to the loop. *)
Lemma interactive_add_bad_date (w : world) (line : string) (rest : list string) :
  stdin w = line :: rest ->
  Datetime.strptime (match Str.strip line with "" => today w | d => d end) = None ->
  interactive_command "add" w
  = (Return tt,
     World (file w)
           ((stdout w +:+ "Date (YYYY-MM-DD) [" +:+ today w +:+ "]: ")
            +:+ " Invalid date format." +:+ newline)
           rest (today w)).
Proof.
  intros Hin Hd.
  change (interactive_command "add" w) with (interactive_add w).
  unfold interactive_add. rewrite bind_run. cbn [get_today].
  rewrite bind_run. unfold input. rewrite Hin. cbv zeta. cbn [set_stdin set_stdout stdout stdin file today].
  rewrite Hd. reflexivity.
Qed.

Lemma interactive_add_bad_amount (w : world) (l1 l2 l3 l4 : string) (rest : list string) :
  stdin w = l1 :: l2 :: l3 :: l4 :: rest ->
  is_Some (Datetime.strptime (match Str.strip l1 with "" => today w | d => d end)) ->
  Float.float (Str.strip l4) = None ->
  interactive_command "add" w
  = (Return tt,
     World (file w)
           (((((stdout w +:+ "Date (YYYY-MM-DD) [" +:+ today w +:+ "]: ")
               +:+ "Description: ") +:+ "Category (or new): ")
             +:+ "Amount (e.g., 12.50): ")
            +:+ " Amount must be numeric." +:+ newline)
           rest (today w)).
Proof.
  intros Hin [ymd Hd] Ha.
  destruct w as [f o i t]. cbn [stdin today file stdout] in *. subst i.
  change (interactive_command "add" ?x) with (interactive_add x).
  unfold interactive_add. rewrite bind_run. cbn [get_today today].
  rewrite bind_run. cbn [input stdin set_stdout set_stdin stdout file today].
  rewrite Hd.
  rewrite bind_run. cbn [input stdin set_stdout set_stdin stdout file today].
  rewrite bind_run. cbn [input stdin set_stdout set_stdin stdout file today].
  rewrite bind_run. cbn [input stdin set_stdout set_stdin stdout file today].
  rewrite Ha. reflexivity.
Qed.

(** C1.  In the interactive loop a malformed month and an index out of
    range both end the process by [sys.exit(1)]: the lines that follow
    are never read. *)
Theorem interactive_exits_on_bad_month_or_index
    (f : option (list (list string))) (out td : string) (rest : list string) :
  let run := fun line => main [] (World f out (line :: rest) td) in
  ((run "monthly 2025-13").1 = SysExit 1 /\ stdin (run "monthly 2025-13").2 = rest)
  /\ ((run "delete 0").1 = SysExit 1 /\ stdin (run "delete 0").2 = rest).
Proof.
  destruct f; repeat split; reflexivity.
Qed.

(** * Further properties *)

(** ** What the computations keep *)

Create HintDb keeps.

Section Keeps.

Context {R : world -> world -> Prop}.
Hypothesis R_refl : forall w, R w w.
Hypothesis R_trans : forall a b c, R a b -> R b c -> R a c.

Lemma keeps_ret {A} (a : A) : keeps R (mret a : M A).
Proof. intros w. apply R_refl. Qed.

Lemma keeps_raise {A} (e : exn) : keeps R (raise e : M A).
Proof. intros w. apply R_refl. Qed.

Lemma keeps_sys_exit {A} (c : Z) : keeps R (sys_exit c : M A).
Proof. intros w. apply R_refl. Qed.

Lemma keeps_read_file : keeps R read_file.
Proof. intros w. apply R_refl. Qed.

Lemma keeps_get_today : keeps R get_today.
Proof. intros w. apply R_refl. Qed.

Lemma keeps_bind {A B} (m : M A) (k : A -> M B) :
  keeps R m -> (forall a, keeps R (k a)) -> keeps R (m ≫= k).
Proof.
  intros Hm Hk w. rewrite bind_run. specialize (Hm w).
  destruct (m w) as [[a | c | e] w']; cbn in *; [| exact Hm | exact Hm].
  exact (R_trans _ _ _ Hm (Hk a w')).
Qed.

#[local] Hint Resolve keeps_ret keeps_raise keeps_sys_exit keeps_read_file
  keeps_get_today : keeps.

Ltac keeps_step :=
  match goal with
  | |- keeps _ (_ ≫= _) => apply keeps_bind; [| intros]
  | |- keeps _ (if ?b then _ else _) => destruct b
  | |- keeps _ (match ?x with _ => _ end) => destruct x
  | |- keeps _ _ => solve [auto with keeps]
  end.

Ltac keeps_auto := repeat keeps_step.

Lemma keeps_for_ {A} (xs : list A) (body : A -> M unit) :
  (forall x, keeps R (body x)) -> keeps R (for_ xs body).
Proof. intros H. induction xs; cbn [for_]; keeps_auto. Qed.

Lemma keeps_for_acc {A S} (xs : list A) (s : S) (body : S -> A -> M S) :
  (forall s x, keeps R (body s x)) -> keeps R (for_acc xs s body).
Proof. intros H. revert s. induction xs; intros s; cbn [for_acc]; keeps_auto. Qed.

Lemma keeps_getitem (r : gmap string value) (k : string) : keeps R (getitem r k).
Proof. unfold getitem. keeps_auto. Qed.

Lemma keeps_as_str (e : exn) (v : value) : keeps R (as_str e v).
Proof. unfold as_str. keeps_auto. Qed.

Lemma keeps_to_float (v : value) : keeps R (to_float v).
Proof. unfold to_float. keeps_auto. Qed.

Lemma keeps_to_int (s : string) : keeps R (to_int s).
Proof. unfold to_int. keeps_auto. Qed.

Lemma keeps_list_limit (parts : list string) : keeps R (list_limit parts).
Proof. unfold list_limit. keeps_auto. apply keeps_to_int. Qed.

#[local] Hint Resolve keeps_getitem keeps_as_str keeps_to_float keeps_to_int
  keeps_list_limit : keeps.

Lemma keeps_select_month (ym : string) (rows : list (gmap string value)) :
  keeps R (select_month ym rows).
Proof. induction rows; cbn [select_month]; keeps_auto. Qed.

Lemma keeps_amounts (rows : list (gmap string value)) : keeps R (amounts rows).
Proof. induction rows; cbn [amounts]; keeps_auto. Qed.

#[local] Hint Resolve keeps_select_month keeps_amounts : keeps.

(** The computations that print and make sure the file is there. *)
Hypothesis R_print : forall s, keeps R (print s).
Hypothesis R_ensure : keeps R ensure_csv.

#[local] Hint Resolve R_print R_ensure : keeps.

Lemma keeps_read_rows : keeps R read_rows.
Proof. unfold read_rows. keeps_auto. Qed.

#[local] Hint Resolve keeps_read_rows : keeps.

Lemma keeps_parse_amount (s : string) : keeps R (parse_amount s).
Proof. unfold parse_amount. keeps_auto. Qed.

Lemma keeps_valid_date (s : string) : keeps R (valid_date s).
Proof. unfold valid_date. keeps_auto. Qed.

Lemma keeps_list_expenses (limit : option Z) : keeps R (list_expenses limit).
Proof.
  unfold list_expenses. keeps_auto.
  apply keeps_for_acc. intros. keeps_auto.
Qed.

Lemma keeps_category_summary : keeps R category_summary.
Proof.
  unfold category_summary. keeps_auto.
  - apply keeps_for_acc. intros. keeps_auto.
  - apply keeps_for_. intros [cat total]. keeps_auto.
Qed.

Lemma keeps_monthly_summary (ym : string) : keeps R (monthly_summary ym).
Proof.
  unfold monthly_summary. keeps_auto.
  apply keeps_for_. intros. keeps_auto.
Qed.

Lemma keeps_list_categories : keeps R list_categories.
Proof.
  unfold list_categories. keeps_auto.
  apply keeps_for_. intros. keeps_auto.
Qed.

#[local] Hint Resolve keeps_parse_amount keeps_valid_date keeps_list_expenses
  keeps_category_summary keeps_monthly_summary keeps_list_categories : keeps.

(** The dispatcher on a command other than [add] and [delete]. *)
Lemma keeps_main_query (cmd : string) (rest : list string) :
  cmd <> "add" -> cmd <> "delete" -> keeps R (main (cmd :: rest)).
Proof.
  intros Ha Hd. unfold main.
  apply String.eqb_neq in Ha, Hd. rewrite Ha, Hd. cbn [andb].
  keeps_auto.
Qed.

(** The loop body on a command that starts neither with [add] nor with
    [delete]. *)
Lemma keeps_interactive_query (cmd : string) :
  Str.startswith cmd "add" = false -> Str.startswith cmd "delete" = false ->
  keeps R (interactive_command cmd).
Proof.
  intros Ha Hd. unfold interactive_command. rewrite Ha, Hd.
  keeps_auto.
Qed.

(** The computations that write, when they keep [R] too. *)
Hypothesis R_input : forall p, keeps R (input p).
Hypothesis R_add : forall d desc c x, keeps R (add_expense d desc c x).
Hypothesis R_delete : forall k, keeps R (delete_expense k).

#[local] Hint Resolve R_input R_add R_delete : keeps.

Lemma keeps_interactive_add : keeps R interactive_add.
Proof. unfold interactive_add. keeps_auto. Qed.

#[local] Hint Resolve keeps_interactive_add : keeps.

Lemma keeps_interactive_command (cmd : string) : keeps R (interactive_command cmd).
Proof. unfold interactive_command. keeps_auto. Qed.

Lemma keeps_interactive_loop (fuel : nat) (w w' : world) (r : outcome unit) :
  interactive_loop fuel w = Some (r, w') -> R w w'.
Proof.
  revert w. induction fuel as [| fuel IH]; intros w H; [discriminate H |].
  cbn [interactive_loop] in H.
  pose proof (R_input "> " w) as Hin.
  destruct (input "> " w) as [[line | c | e] w1]; cbn in Hin;
    [| injection H as <- <-; exact Hin | injection H as <- <-; exact Hin].
  destruct (_ || _); [injection H as <- <-; exact Hin |].
  pose proof (keeps_interactive_command (Str.lower (Str.strip line)) w1) as Hc.
  destruct (interactive_command _ w1) as [[[] | c | e] w2]; cbn in Hc.
  - exact (R_trans _ _ _ (R_trans _ _ _ Hin Hc) (IH _ H)).
  - injection H as <- <-. exact (R_trans _ _ _ Hin Hc).
  - injection H as <- <-. exact (R_trans _ _ _ Hin Hc).
Qed.

Lemma keeps_interactive_while : keeps R interactive_while.
Proof.
  intros w. unfold interactive_while.
  destruct (interactive_loop _ w) as [[r w'] |] eqn:E; [| apply R_refl].
  exact (keeps_interactive_loop _ _ _ _ E).
Qed.

#[local] Hint Resolve keeps_interactive_while : keeps.

Lemma keeps_interactive : keeps R interactive.
Proof. unfold interactive. keeps_auto. Qed.

#[local] Hint Resolve keeps_interactive : keeps.


End Keeps.

(** ** The reports leave the store alone *)

Lemma store_kept_refl (w : world) : store_kept w w.
Proof. left. reflexivity. Qed.

Lemma store_kept_trans (a b c : world) :
  store_kept a b -> store_kept b c -> store_kept a c.
Proof.
  unfold store_kept. intros [Hab | [Ha Hb]] [Hbc | [Hb' Hc]].
  - left. congruence.
  - right. split; congruence.
  - right. split; congruence.
  - congruence.
Qed.

Lemma store_kept_print (s : string) : keeps store_kept (print s).
Proof. intros w. left. reflexivity. Qed.

Lemma store_kept_ensure_csv : keeps store_kept ensure_csv.
Proof.
  intros [[rows |] o i t]; [left; reflexivity | right; split; reflexivity].
Qed.

(** X1.  Whatever its arguments and however it ends (normally, by the
    usage banner, by [sys.exit] or by an exception), an invocation whose
    command is neither [add] nor [delete] leaves the file as it was; the
    one change it can make is to create a missing file with the header
    row alone. *)
Theorem queries_keep_store (cmd : string) (rest : list string) (w : world) :
  cmd <> "add" -> cmd <> "delete" ->
  file (main (cmd :: rest) w).2 = file w
  \/ (file w = None /\ file (main (cmd :: rest) w).2 = Some [header]).
Proof.
  intros Ha Hd.
  exact (keeps_main_query store_kept_refl store_kept_trans store_kept_print
           store_kept_ensure_csv cmd rest Ha Hd w).
Qed.

Lemma queries_keep_store_witness :
  let w := World (Some (table [Expense "2025-09-01" "Coffee" "food" "oops"]))
                 "" [] "2025-09-20" in
  (main ["list"] w).1 = Raised ValueError
  /\ (file (main ["list"] w).2 = file w
      \/ (file w = None /\ file (main ["list"] w).2 = Some [header])).
Proof.
  intros w. split; [reflexivity |].
  exact (queries_keep_store "list" [] w ltac:(discriminate) ltac:(discriminate)).
Defined.

(** ** The store stays well formed *)










(** ** The input is read from the front *)

Lemma input_left_refl (w : world) : input_left w w.
Proof. unfold input_left. reflexivity. Qed.

Lemma input_left_trans (a b c : world) :
  input_left a b -> input_left b c -> input_left a c.
Proof. unfold input_left. intros H1 H2. etransitivity; eassumption. Qed.

Lemma input_left_print (s : string) : keeps input_left (print s).
Proof. intros w. unfold input_left. reflexivity. Qed.

Lemma input_left_input (p : string) : keeps input_left (input p).
Proof.
  intros [f o [| l ls] t]; unfold input_left; cbn; [reflexivity |].
  apply suffix_cons_r. reflexivity.
Qed.

Lemma input_left_ensure_csv : keeps input_left ensure_csv.
Proof. intros [[rows |] o i t]; unfold input_left; reflexivity. Qed.

Lemma input_left_writerow (r : list string) : keeps input_left (writerow r).
Proof. intros [f o i t]. unfold input_left. reflexivity. Qed.

Lemma input_left_open_w : keeps input_left open_w.
Proof. intros w. unfold input_left. reflexivity. Qed.

Lemma input_left_add_expense (d desc c : string) (x : spec_float) :
  keeps input_left (add_expense d desc c x).
Proof.
  unfold add_expense.
  repeat (apply (keeps_bind input_left_trans); [| intros]);
    auto using input_left_ensure_csv, input_left_writerow, input_left_print.
Qed.

Lemma input_left_delete_expense (k : Z) : keeps input_left (delete_expense k).
Proof.
  pose proof (@keeps_bind _ input_left_trans) as Hbind.
  pose proof (@keeps_getitem _ input_left_refl) as Hget.
  unfold delete_expense.
  apply Hbind; [apply input_left_ensure_csv | intros _].
  apply Hbind;
    [apply (keeps_read_rows input_left_refl input_left_trans input_left_ensure_csv)
    | intros rows].
  destruct (_ || _).
  - apply Hbind; [apply input_left_print | intros _]. intros w. apply input_left_refl.
  - destruct (pop _ rows) as [[removed rows'] |]; [| intros w; apply input_left_refl].
    apply Hbind; [apply input_left_open_w | intros _].
    apply Hbind; [apply input_left_writerow | intros _].
    apply Hbind.
    + apply (keeps_for_ input_left_refl input_left_trans). intros r.
      repeat (apply Hbind; [apply Hget | intros]). apply input_left_writerow.
    + intros _. repeat (apply Hbind; [apply Hget | intros]). apply input_left_print.
Qed.

Lemma input_left_interactive_command (cmd : string) :
  keeps input_left (interactive_command cmd).
Proof.
  exact (keeps_interactive_command input_left_refl input_left_trans input_left_print
           input_left_ensure_csv input_left_input input_left_add_expense
           input_left_delete_expense cmd).
Qed.

(** The loop returns only past a line that quits. *)
Lemma interactive_loop_returns (fuel : nat) (w w' : world) :
  interactive_loop fuel w = Some (Return tt, w') -> Exists quits (stdin w).
Proof.
  revert w. induction fuel as [| fuel IH]; intros w H; [discriminate H |].
  cbn [interactive_loop] in H. unfold input in H.
  destruct w as [f o [| line ls] t]; cbn [stdin] in *; [discriminate H |].
  cbn [set_stdin set_stdout stdout stdin file today] in H.
  destruct (String.eqb _ "quit" || String.eqb _ "exit") eqn:Eq.
  - apply Exists_cons_hd. unfold quits.
    apply orb_true_iff in Eq as [Eq | Eq]; apply String.eqb_eq in Eq; auto.
  - apply Exists_cons_tl.
    pose proof (input_left_interactive_command (Str.lower (Str.strip line))
                  (World f (o +:+ "> ") ls t)) as Hleft.
    destruct (interactive_command _ _) as [[[] | c | e] w2]; try discriminate H.
    unfold input_left in Hleft. cbn [stdin snd] in Hleft.
    destruct Hleft as [k ->]. apply Exists_app. right. exact (IH _ H).
Qed.

(** X3.  The interactive session returns normally only if one of the
    lines of its input is [quit] or [exit] (in any case, with blanks
    around it): an input without such a line ends the session by
    [EOFError], by [sys.exit] or by another exception. *)
Theorem interactive_returns_on_quit (w : world) :
  (main [] w).1 = Return tt -> Exists quits (stdin w).
Proof.
  intros H.
  assert (Hloop : exists w0, stdin w0 = stdin w
                             /\ main [] w = interactive_while w0).
  { destruct w as [[rows |] o i t]; eexists; (split; [| reflexivity]); reflexivity. }
  destruct Hloop as (w0 & Hin & Hrun). rewrite Hrun in H. rewrite <- Hin.
  unfold interactive_while in H.
  destruct (interactive_loop _ w0) as [[r w'] |] eqn:E; [| discriminate H].
  cbn in H. subst r. exact (interactive_loop_returns _ _ _ E).
Qed.

Lemma interactive_returns_on_quit_witness :
  Exists quits ["list"; " Quit "; "summary"].
Proof.
  exact (interactive_returns_on_quit
           (World None "" ["list"; " Quit "; "summary"] "2025-09-20") eq_refl).
Defined.

(** ** Rejected additions *)

(** X4.  A single-shot [add] whose date [strptime] refuses, or whose
    amount [float] refuses, exits with status 1 after one message, the
    date being checked first; nothing is written, and a file that does
    not exist is not created. *)
Theorem main_add_rejects (w : world) (d desc c a : string) (rest : list string) :
  Datetime.strptime d = None \/ Float.float a = None ->
  main ("add" :: d :: desc :: c :: a :: rest) w
  = (SysExit 1,
     set_stdout
       (stdout w +:+
        match Datetime.strptime d with
        | None => " Date must be in YYYY-MM-DD format, e.g., 2025-09-20."
        | Some _ => " Amount must be a number. Example: 12.50"
        end +:+ newline) w).
Proof.
  intros H.
  change (main ("add" :: d :: desc :: c :: a :: rest) w)
    with ((date ← valid_date d; amount ← parse_amount a;
           add_expense date desc (Str.lower c) amount) w).
  unfold valid_date. destruct (Datetime.strptime d) as [ymd |] eqn:Hd.
  - destruct H as [H | Ha]; [discriminate H |].
    rewrite bind_run. cbn [mret M_ret]. unfold parse_amount. rewrite Ha. reflexivity.
  - reflexivity.
Qed.

Lemma main_add_rejects_witness :
  let w := World None "" [] "2025-09-20" in
  main ["add"; "2025-02-30"; "Tea"; "food"; "abc"] w
  = (SysExit 1,
     World None (" Date must be in YYYY-MM-DD format, e.g., 2025-09-20." +:+ newline)
           [] "2025-09-20")
  /\ main ["add"; "2025-02-28"; "Tea"; "food"; "12,50"] w
     = (SysExit 1,
        World None (" Amount must be a number. Example: 12.50" +:+ newline)
              [] "2025-09-20").
Proof.
  intros w. split.
  - exact (main_add_rejects w "2025-02-30" "Tea" "food" "abc" [] (or_introl eq_refl)).
  - exact (main_add_rejects w "2025-02-28" "Tea" "food" "12,50" [] (or_intror eq_refl)).
Defined.

(** ** Commands that fail on a missing file *)

(** X5.  [monthly] and [delete] create a missing file before they look at
    their argument: with no file, [monthly] with a month the check
    refuses, and [delete] with any index at all, exit with status 1 and
    leave a file of the header row alone. *)
Theorem failing_commands_create_file (w : world) (ym : string) (k : Z) :
  file w = None ->
  month_ok ym = false ->
  monthly_summary ym w
  = (SysExit 1,
     World (Some [header])
           (stdout w +:+ " Month must be in 'YYYY-MM' format, e.g., 2025-09." +:+ newline)
           (stdin w) (today w))
  /\ delete_expense k w
     = (SysExit 1,
        World (Some [header]) (stdout w +:+ " Invalid index. Use 1..0" +:+ newline)
              (stdin w) (today w)).
Proof.
  intros Hf Hm. split.
  - destruct w as [f o i t]. cbn in Hf. subst f.
    unfold monthly_summary. rewrite Hm. reflexivity.
  - rewrite (delete_expense_absent k w Hf).
    rewrite (delete_expense_rejects (set_file (Some [header]) w) [header] k eq_refl);
      [reflexivity |].
    cbn. lia.
Qed.

Lemma failing_commands_create_file_witness :
  let w := World None "" [] "2025-09-20" in
  file (main ["monthly"; "2025-13"] w).2 = Some [header]
  /\ file (main ["delete"; "1"] w).2 = Some [header].
Proof.
  intros w.
  pose proof (failing_commands_create_file w "2025-13" 1 eq_refl eq_refl) as [Hm Hd].
  split.
  - change (main ["monthly"; "2025-13"] w) with (monthly_summary "2025-13" w).
    rewrite Hm. reflexivity.
  - change (main ["delete"; "1"] w) with (delete_expense 1 w).
    rewrite Hd. reflexivity.
Defined.

(** ** Listing the last records *)

Lemma for_acc_app {A S} (l1 l2 : list A) (s : S) (body : S -> A -> M S) (w : world) :
  for_acc (l1 ++ l2) s body w = (s' ← for_acc l1 s body; for_acc l2 s' body) w.
Proof.
  revert s w. induction l1 as [| x l1 IH]; intros s w; [reflexivity |].
  cbn [app for_acc]. rewrite !bind_run.
  destruct (body s x w) as [[s' | c | e] w']; [| reflexivity | reflexivity].
  rewrite IH, bind_run. reflexivity.
Qed.





(** X7.  [list] reads the amounts as it prints: at the first record whose
    amount does not read as a number it ends with [ValueError], after the
    heading and the lines of the records before that one, and without the
    closing rule and the total. *)
Theorem list_stops_at_unreadable_amount
    (w : world) (good rest : list expense) (bad : expense) (xs : list spec_float) :
  file w = Some (table (good ++ bad :: rest)) ->
  Forall2 (fun e x => Float.float (amount e) = Some x) good xs ->
  Float.float (amount bad) = None ->
  main ["list"] w
  = (Raised ValueError,
     set_stdout
       (stdout w +:+
        unlines ([rule 72;
                  Str.ljust 10 "DATE" +:+ "  " +:+ Str.ljust 28 "DESCRIPTION" +:+ "  "
                  +:+ Str.ljust 14 "CATEGORY" +:+ "  " +:+ Str.rjust 10 "AMOUNT";
                  rule 72]
                 ++ zip_with list_line good xs)) w).
Proof.
  intros Hf Hx Hbad.
  change (main ["list"] w) with (list_expenses None w). unfold list_expenses.
  rewrite (bind_return _ _ _ _ _ (ensure_csv_present _ _ Hf)).
  rewrite (bind_return _ _ _ _ _ (read_rows_present _ _ Hf)).
  rewrite DictReader_table. cbn [truthy]. cbv zeta.
  rewrite bind_run, print_run. rewrite bind_run, print_run. rewrite bind_run, print_run.
  rewrite bind_run, fmap_app, for_acc_app, bind_run, (list_lines _ _ _ _ Hx).
  cbn [fmap list_fmap for_acc]. rewrite !bind_run.
  match goal with |- context [getitem (dict_of bad) "amount" ?w0] =>
    destruct (getitem_dict_of bad w0) as (_ & _ & _ & H4) end.
  rewrite H4. cbn [to_float]. rewrite Hbad.
  cbn [raise set_stdout stdout file stdin today].
  rewrite !unlines_app, !unlines_cons2, !append_assoc. reflexivity.
Qed.

Lemma list_stops_at_unreadable_amount_witness :
  let es := [Expense "2025-09-01" "Coffee" "food" "3.50";
             Expense "2025-09-15" "Rent" "rent" "12,00";
             Expense "2025-09-16" "Bus" "transport" "2.40"] in
  let w := World (Some (table es)) "" [] "2025-09-20" in
  main ["list"] w
  = (Raised ValueError,
     set_stdout
       (unlines
          [rule 72;
           "DATE        DESCRIPTION                   CATEGORY            AMOUNT";
           rule 72;
           "2025-09-01  Coffee                        food            $     3.50"])
       w).
Proof.
  intros es w.
  exact (list_stops_at_unreadable_amount w
           [Expense "2025-09-01" "Coffee" "food" "3.50"]
           [Expense "2025-09-16" "Bus" "transport" "2.40"]
           (Expense "2025-09-15" "Rent" "rent" "12,00")
           [S754_finite false 7881299347898368 (-51)]
           eq_refl ltac:(repeat constructor) eq_refl).
Defined.

(** ** The monthly summary reads before it prints *)

Lemma amounts_unreadable (sel : list expense) (e : expense) (w : world) :
  e ∈ sel -> Float.float (amount e) = None ->
  amounts (dict_of <$> sel) w = (Raised ValueError, w).
Proof.
  intros Hin He. induction sel as [| e0 sel IH]; [inversion Hin |].
  cbn [fmap list_fmap amounts].
  destruct (getitem_dict_of e0 w) as (_ & _ & _ & H4).
  rewrite bind_run, (bind_return _ _ _ _ _ H4). cbn [to_float].
  destruct (Float.float (amount e0)) as [x |] eqn:Hx; [| reflexivity].
  cbn [mret M_ret]. rewrite bind_run.
  apply elem_of_cons in Hin as [-> | Hin]; [congruence |].
  rewrite (IH Hin). reflexivity.
Qed.

(** X8.  [monthly] reads every selected amount before it prints anything:
    when the amount of one record of the month does not read as a number,
    it ends with [ValueError] and has printed nothing, not even the
    title. *)
Theorem monthly_summary_unreadable_amount
    (w : world) (es : list expense) (ym : string) (e : expense) :
  file w = Some (table es) ->
  month_ok ym = true ->
  e ∈ es -> Str.startswith (date e) ym = true -> Float.float (amount e) = None ->
  main ["monthly"; ym] w = (Raised ValueError, w).
Proof.
  intros Hf Hm Hin Hsel He.
  change (main ["monthly"; ym] w) with (monthly_summary ym w).
  unfold monthly_summary.
  rewrite (bind_return _ _ _ _ _ (ensure_csv_present _ _ Hf)).
  rewrite Hm. rewrite bind_run. cbn [mret M_ret].
  rewrite (bind_return _ _ _ _ _ (read_rows_present _ _ Hf)).
  rewrite DictReader_table.
  rewrite (bind_return _ _ _ _ _ (select_month_table ym es w)).
  rewrite bind_run, (amounts_unreadable _ e w); [reflexivity | | exact He].
  apply list_elem_of_In, filter_In. split; [apply list_elem_of_In; exact Hin | exact Hsel].
Qed.

Lemma monthly_summary_unreadable_amount_witness :
  let es := [Expense "2025-09-01" "Coffee" "food" "3.50";
             Expense "2025-09-15" "Rent" "rent" "12,00"] in
  let w := World (Some (table es)) "" [] "2025-09-20" in
  main ["monthly"; "2025-09"] w = (Raised ValueError, w).
Proof.
  intros es w.
  exact (monthly_summary_unreadable_amount w es "2025-09"
           (Expense "2025-09-15" "Rent" "rent" "12,00")
           eq_refl eq_refl ltac:(apply list_elem_of_In; right; left; reflexivity)
           eq_refl eq_refl).
Defined.

(** ** The summary by category *)

(** *** The dictionary of sums *)

Lemma sums_get_set (c c' : value) (v : spec_float) (s : list (value * spec_float)) :
  sums_get c (sums_set c' v s) = if decide (c = c') then v else sums_get c s.
Proof.
  unfold sums_get. induction s as [| [k x] s IH]; cbn [sums_set List.find fst snd].
  - destruct (decide (c = c')) as [-> | Hne].
    + rewrite bool_decide_eq_true_2 by reflexivity. reflexivity.
    + rewrite bool_decide_eq_false_2 by congruence. reflexivity.
  - destruct (decide (k = c')) as [-> | Hk].
    + rewrite (bool_decide_eq_true_2 (c' = c')) by reflexivity.
      cbn [List.find fst snd].
      destruct (decide (c = c')) as [-> | Hne].
      * rewrite bool_decide_eq_true_2 by reflexivity. reflexivity.
      * rewrite !bool_decide_eq_false_2 by congruence. reflexivity.
    + rewrite (bool_decide_eq_false_2 (k = c')) by exact Hk.
      cbn [List.find fst snd].
      destruct (decide (k = c)) as [-> | Hkc].
      * rewrite bool_decide_eq_true_2 by reflexivity.
        destruct (decide (c = c')); [contradiction | reflexivity].
      * rewrite bool_decide_eq_false_2 by exact Hkc. exact IH.
Qed.

Lemma sums_set_keys (c : value) (v : spec_float) (s : list (value * spec_float)) (k : value) :
  k ∈ (sums_set c v s).*1 <-> k = c \/ k ∈ s.*1.
Proof.
  induction s as [| [k0 x] s IH]; cbn [sums_set fst].
  - cbn. rewrite elem_of_cons, elem_of_nil. tauto.
  - destruct (decide (k0 = c)) as [-> | Hk].
    + rewrite bool_decide_eq_true_2 by reflexivity. cbn. rewrite !elem_of_cons. tauto.
    + rewrite bool_decide_eq_false_2 by exact Hk. cbn [fmap list_fmap fst].
      rewrite !elem_of_cons, IH. tauto.
Qed.

Lemma sums_set_NoDup (c : value) (v : spec_float) (s : list (value * spec_float)) :
  NoDup s.*1 -> NoDup (sums_set c v s).*1.
Proof.
  induction s as [| [k0 x] s IH]; cbn [sums_set fst]; intros Hs.
  - cbn. apply NoDup_singleton.
  - cbn [fmap list_fmap fst] in Hs. apply NoDup_cons in Hs as [Hk0 Hs].
    destruct (decide (k0 = c)) as [-> | Hk].
    + rewrite bool_decide_eq_true_2 by reflexivity. cbn [fmap list_fmap fst].
      apply NoDup_cons. split; assumption.
    + rewrite bool_decide_eq_false_2 by exact Hk. cbn [fmap list_fmap fst].
      apply NoDup_cons. split; [| exact (IH Hs)].
      rewrite sums_set_keys. intros [-> | Hin]; [apply Hk; reflexivity | exact (Hk0 Hin)].
Qed.

Lemma sums_get_elem (s : list (value * spec_float)) (k : value) (v : spec_float) :
  NoDup s.*1 -> (k, v) ∈ s -> sums_get k s = v.
Proof.
  unfold sums_get. induction s as [| [k0 x] s IH]; intros Hs Hin; [inversion Hin |].
  cbn [fmap list_fmap fst] in Hs. apply NoDup_cons in Hs as [Hk0 Hs].
  cbn [List.find fst snd]. apply elem_of_cons in Hin as [Heq | Hin].
  - injection Heq as -> ->. rewrite bool_decide_eq_true_2 by reflexivity. reflexivity.
  - destruct (decide (k0 = k)) as [-> | Hk].
    + exfalso. apply Hk0. apply list_elem_of_fmap. exists (k, v). split; [reflexivity | exact Hin].
    + rewrite bool_decide_eq_false_2 by exact Hk. exact (IH Hs Hin).
Qed.

(** *** The loop over the records *)

Lemma tally_loop (es : list expense) (xs : list spec_float)
    (s0 : list (value * spec_float)) (w : world) :
  Forall2 (fun e x => Float.float (amount e) = Some x) es xs ->
  for_acc (dict_of <$> es) s0 (fun sums r =>
      cat ← getitem r "category";
      amt ← getitem r "amount" ≫= to_float;
      mret (sums_set cat (Float.add (sums_get cat sums) amt) sums)) w
  = (Return (foldl tally_step s0 (zip es xs)), w).
Proof.
  intros H. revert s0. induction H as [| e x es xs Hx _ IH]; intros s0; [reflexivity |].
  cbn [fmap list_fmap for_acc zip zip_with foldl]. rewrite bind_run.
  destruct (getitem_dict_of e w) as (_ & _ & H3 & H4).
  rewrite (bind_return _ _ _ _ _ H3).
  rewrite bind_run, bind_run, H4. cbn [to_float]. rewrite Hx. cbn [mret M_ret].
  exact (IH _).
Qed.

Lemma tally_get (c : string) (l : list (expense * spec_float))
    (s0 : list (value * spec_float)) :
  sums_get (PyStr c) (foldl tally_step s0 l)
  = foldl Float.add (sums_get (PyStr c) s0) (filter (fun ex => category ex.1 = c) l).*2.
Proof.
  revert s0. induction l as [| [e x] l IH]; intros s0; [reflexivity |].
  cbn [foldl]. rewrite IH. unfold tally_step. cbn [fst snd].
  rewrite sums_get_set. rewrite filter_cons. cbn [fst].
  destruct (decide (category e = c)) as [-> | Hne].
  - rewrite decide_True by reflexivity. reflexivity.
  - rewrite decide_False by congruence. reflexivity.
Qed.

Lemma tally_keys (l : list (expense * spec_float)) (s0 : list (value * spec_float))
    (k : value) :
  k ∈ (foldl tally_step s0 l).*1 <-> k ∈ s0.*1 \/ exists ex, ex ∈ l /\ k = PyStr (category ex.1).
Proof.
  revert s0. induction l as [| ex l IH]; intros s0; cbn [foldl].
  - split; [auto |]. intros [H | (ex & Hin & _)]; [exact H | inversion Hin].
  - rewrite IH. unfold tally_step at 1. rewrite sums_set_keys. split.
    + intros [[-> | H] | (ex' & Hin & ->)]; [right | left | right].
      * exists ex. split; [left | reflexivity].
      * exact H.
      * exists ex'. split; [right; exact Hin | reflexivity].
    + intros [H | (ex' & Hin & ->)]; [left; right; exact H |].
      apply elem_of_cons in Hin as [-> | Hin]; [left; left; reflexivity |].
      right. exists ex'. split; [exact Hin | reflexivity].
Qed.

Lemma tally_NoDup (l : list (expense * spec_float)) (s0 : list (value * spec_float)) :
  NoDup s0.*1 -> NoDup (foldl tally_step s0 l).*1.
Proof.
  revert s0. induction l as [| ex l IH]; intros s0 Hs; [exact Hs |].
  cbn [foldl]. apply IH. apply sums_set_NoDup. exact Hs.
Qed.

(** *** The order of the lines *)

Lemma insert_sorted_perm (x : value * spec_float) (l : list (value * spec_float)) :
  insert_sorted x l ≡ₚ x :: l.
Proof.
  induction l as [| y l IH]; [reflexivity |].
  cbn [insert_sorted]. destruct (key_lt x y); [reflexivity |].
  rewrite IH. apply Permutation_swap.
Qed.

Lemma sorted_desc_perm (l : list (value * spec_float)) : sorted_desc l ≡ₚ l.
Proof.
  unfold sorted_desc.
  assert (H : forall acc, foldl (fun acc x => insert_sorted x acc) acc l ≡ₚ acc ++ l).
  { induction l as [| x l IH]; intros acc; cbn [foldl].
    - rewrite app_nil_r. reflexivity.
    - rewrite IH, insert_sorted_perm. apply Permutation_middle. }
  exact (H []).
Qed.

Lemma SFcompare_antisym (x y : spec_float) :
  SFcompare y x = CompOpp <$> SFcompare x y.
Proof.
  destruct x as [s1 | s1 | | s1 m1 e1], y as [s2 | s2 | | s2 m2 e2];
    try destruct s1; try destruct s2; try reflexivity.
  all: cbn;
    change (PosDef.Pos.compare_cont Eq m1 m2) with (m1 ?= m2)%positive;
    change (PosDef.Pos.compare_cont Eq m2 m1) with (m2 ?= m1)%positive;
    rewrite (Z.compare_antisym e2 e1), (Pos.compare_antisym m2 m1);
    destruct (e2 ?= e1); cbn; try reflexivity;
    destruct (m2 ?= m1)%positive; reflexivity.
Qed.

Lemma SFcompare_opp (x y : spec_float) :
  SFcompare (SFopp x) (SFopp y) = SFcompare y x.
Proof.
  destruct x as [s1 | s1 | | s1 m1 e1], y as [s2 | s2 | | s2 m2 e2];
    try destruct s1; try destruct s2; try reflexivity.
  all: cbn;
    change (PosDef.Pos.compare_cont Eq m1 m2) with (m1 ?= m2)%positive;
    change (PosDef.Pos.compare_cont Eq m2 m1) with (m2 ?= m1)%positive;
    rewrite (Z.compare_antisym e1 e2), (Pos.compare_antisym m1 m2);
    destruct (e1 ?= e2); cbn; try reflexivity;
    destruct (m1 ?= m2)%positive; reflexivity.
Qed.

Lemma SFcompare_not_nan (x y : spec_float) :
  is_nan x = false -> is_nan y = false -> is_Some (SFcompare x y).
Proof.
  destruct x, y; cbn; intros Hx Hy; try discriminate; eexists; reflexivity.
Qed.

(** On numbers, a key that is not below the other is at least the other:
    the larger total stands first. *)
Lemma key_lt_false (a b : value * spec_float) :
  is_nan a.2 = false -> is_nan b.2 = false ->
  key_lt b a = false -> SFleb b.2 a.2 = true.
Proof.
  unfold key_lt, SFltb, SFleb. rewrite SFcompare_opp. intros Ha Hb.
  rewrite (SFcompare_antisym a.2 b.2).
  destruct (SFcompare_not_nan a.2 b.2 Ha Hb) as [o ->]. cbn.
  destruct o; cbn; intros H; [reflexivity | discriminate H | reflexivity].
Qed.

Lemma key_lt_asym (a b : value * spec_float) : key_lt a b = true -> key_lt b a = false.
Proof.
  unfold key_lt, SFltb. rewrite (SFcompare_antisym (SFopp a.2) (SFopp b.2)).
  destruct (SFcompare (SFopp a.2) (SFopp b.2)) as [[] |]; cbn; congruence.
Qed.

Lemma insert_sorted_sorted (x : value * spec_float) (l : list (value * spec_float)) :
  Sorted (fun a b => key_lt b a = false) l ->
  Sorted (fun a b => key_lt b a = false) (insert_sorted x l).
Proof.
  induction l as [| y l IH]; intros Hs; cbn [insert_sorted].
  - repeat constructor.
  - destruct (key_lt x y) eqn:Hxy.
    + constructor; [exact Hs |]. constructor. apply key_lt_asym. exact Hxy.
    + apply Sorted_inv in Hs as [Hs Hhd]. constructor; [exact (IH Hs) |].
      destruct l as [| z l]; cbn [insert_sorted].
      * constructor. exact Hxy.
      * destruct (key_lt x z); constructor; [exact Hxy |].
        apply HdRel_inv in Hhd. exact Hhd.
Qed.

Lemma sorted_desc_sorted (l : list (value * spec_float)) :
  Sorted (fun a b => key_lt b a = false) (sorted_desc l).
Proof.
  unfold sorted_desc.
  assert (H : forall acc, Sorted (fun a b => key_lt b a = false) acc ->
                          Sorted (fun a b => key_lt b a = false)
                                 (foldl (fun acc x => insert_sorted x acc) acc l)).
  { induction l as [| x l IH]; intros acc Hacc; cbn [foldl]; [exact Hacc |].
    apply IH, insert_sorted_sorted, Hacc. }
  apply H. constructor.
Qed.

(** *** The report *)

Lemma summary_lines (rows : list (string * spec_float)) (w : world) :
  for_ ((fun r => (PyStr r.1, r.2)) <$> rows) (fun '(cat, total) =>
      c ← as_str TypeError cat;
      print (Str.ljust 14 c +:+ "  $" +:+ Str.rjust 9 (Float.fmt2 total))) w
  = (Return tt, set_stdout (stdout w +:+ unlines (summary_line <$> rows)) w).
Proof.
  revert w. induction rows as [| [c t] rows IH]; intros w.
  - cbn. rewrite append_nil_r, set_stdout_same. reflexivity.
  - cbn [fmap list_fmap for_ fst snd]. rewrite bind_run.
    cbn [as_str]. rewrite bind_run. cbn [mret M_ret]. rewrite print_run, IH.
    cbn [set_stdout stdout file stdin today].
    change (summary_line (c, t) :: (summary_line <$> rows))
      with ([summary_line (c, t)] ++ (summary_line <$> rows)).
    rewrite unlines_app, append_assoc. reflexivity.
Qed.

Lemma rows_of_sums (S : list (value * spec_float)) :
  Forall (fun kv => exists c, kv.1 = PyStr c) S ->
  S = (fun r => (PyStr r.1, r.2)) <$> ((fun kv => (Csv.to_str kv.1, kv.2)) <$> S).
Proof.
  induction 1 as [| [k v] S [c Hc] _ IH]; [reflexivity |].
  cbn [fst] in Hc. subst k. cbn [fmap list_fmap fst snd Csv.to_str]. f_equal. exact IH.
Qed.

Lemma sorted_rows (rows : list (string * spec_float)) :
  Sorted (fun a b => key_lt b a = false) ((fun r => (PyStr r.1, r.2)) <$> rows) ->
  Forall (fun r => is_nan r.2 = false) rows ->
  Sorted (fun a b => SFleb b.2 a.2 = true) rows.
Proof.
  induction rows as [| a rows IH]; intros Hs Hn; [constructor |].
  cbn [fmap list_fmap] in Hs. apply Sorted_inv in Hs as [Hs Hhd].
  apply Forall_cons in Hn as [Ha Hn].
  constructor; [exact (IH Hs Hn) |].
  destruct rows as [| b rows]; constructor.
  cbn [fmap list_fmap] in Hhd. apply HdRel_inv in Hhd.
  apply Forall_cons in Hn as [Hb _].
  exact (key_lt_false (PyStr a.1, a.2) (PyStr b.1, b.2) Ha Hb Hhd).
Qed.

Lemma tally_categories (es : list expense) (xs : list spec_float) (k : value) :
  Forall2 (fun e x => Float.float (amount e) = Some x) es xs ->
  k ∈ (foldl tally_step [] (zip es xs)).*1
  <-> exists c, k = PyStr c /\ c ∈ category <$> es.
Proof.
  intros Hx. rewrite tally_keys. split.
  - intros [H | ([e x] & Hin & ->)]; [inversion H |].
    exists (category e). split; [reflexivity |].
    apply list_elem_of_fmap. exists e. split; [reflexivity |].
    exact (elem_of_zip_l _ _ _ _ Hin).
  - intros (c & -> & Hc). right.
    apply list_elem_of_fmap in Hc as (e & -> & He).
    apply list_elem_of_lookup in He as [i Hi].
    destruct (Forall2_lookup_l _ _ _ _ _ Hx Hi) as (x & Hxi & _).
    exists (e, x). split; [| reflexivity].
    apply list_elem_of_lookup. exists i. apply lookup_zip_with_Some.
    exists e, x. auto.
Qed.

Lemma tally_keys_str (es : list expense) (xs : list spec_float) :
  Forall2 (fun e x => Float.float (amount e) = Some x) es xs ->
  Forall (fun kv => exists c, kv.1 = PyStr c)
         (sorted_desc (foldl tally_step [] (zip es xs))).
Proof.
  intros Hx. apply Forall_forall. intros kv Hin. rewrite sorted_desc_perm in Hin.
  destruct (proj1 (tally_categories es xs kv.1 Hx)) as (c & Hc & _); [| exists c; exact Hc].
  apply list_elem_of_fmap. exists kv. auto.
Qed.

(** On a table whose amounts read as floats, the summary returns and
    prints the sorted dictionary of sums between its rules. *)
Lemma category_summary_report (w : world) (es : list expense) (xs : list spec_float) :
  file w = Some (table es) ->
  Forall2 (fun e x => Float.float (amount e) = Some x) es xs ->
  category_summary w
  = (Return tt,
     set_stdout
       (stdout w +:+
        summary_report ((fun kv : value * spec_float => (Csv.to_str kv.1, kv.2))
                          <$> sorted_desc (foldl tally_step [] (zip es xs)))) w).
Proof.
  intros Hf Hx. unfold category_summary.
  rewrite (bind_return _ _ _ _ _ (ensure_csv_present _ _ Hf)).
  rewrite (bind_return _ _ _ _ _ (read_rows_present _ _ Hf)).
  rewrite DictReader_table.
  rewrite (bind_return _ _ _ _ _ (tally_loop es xs [] w Hx)).
  rewrite bind_run, print_run. rewrite bind_run, print_run. rewrite bind_run, print_run.
  rewrite (rows_of_sums _ (tally_keys_str es xs Hx)) at 1.
  rewrite bind_run, summary_lines, print_run.
  cbn [set_stdout stdout file stdin today].
  unfold summary_report. rewrite !unlines_app, !unlines_cons2, !append_assoc.
  reflexivity.
Qed.

(** X9.  On a table whose amounts read as floats, none of the totals
    being NaN, [category_summary] prints one line for every category of
    the file and one only; the total on the line of a category is the sum
    of the amounts of its records, added in file order from zero; and no
    line carries a total below that of the line after it. *)
Theorem category_summary_totals (w : world) (es : list expense) (xs : list spec_float) :
  file w = Some (table es) ->
  Forall2 (fun e x => Float.float (amount e) = Some x) es xs ->
  Forall (fun c => is_nan (sum (amounts_of c es xs)) = false) (category <$> es) ->
  exists rows : list (string * spec_float),
    main ["summary"] w = (Return tt, set_stdout (stdout w +:+ summary_report rows) w)
    /\ NoDup rows.*1
    /\ (forall c, c ∈ rows.*1 <-> c ∈ category <$> es)
    /\ (forall c t, (c, t) ∈ rows -> t = sum (amounts_of c es xs))
    /\ Sorted (fun a b => SFleb b.2 a.2 = true) rows.
Proof.
  intros Hf Hx Hnan.
  pose proof (category_summary_report w es xs Hf Hx) as Hrun.
  pose proof (tally_categories es xs) as Hkeys.
  pose proof (tally_keys_str es xs Hx) as Hstr.
  set (sums := foldl tally_step [] (zip es xs)) in *.
  set (g := fun r : string * spec_float => (PyStr r.1, r.2)).
  assert (Hnd : NoDup sums.*1) by (apply tally_NoDup; constructor).
  assert (Hperm : sorted_desc sums ≡ₚ sums) by apply sorted_desc_perm.
  set (rows := (fun kv : value * spec_float => (Csv.to_str kv.1, kv.2)) <$> sorted_desc sums)
    in *.
  assert (Hrows : sorted_desc sums = g <$> rows) by exact (rows_of_sums _ Hstr).
  assert (Hmem : forall c t, (c, t) ∈ rows <-> (PyStr c, t) ∈ sums).
  { intros c t. rewrite <- Hperm, Hrows, list_elem_of_fmap. split.
    - intros H. exists (c, t). auto.
    - intros ([c' t'] & Heq & H). injection Heq as -> ->. exact H. }
  assert (Htot : forall c t, (c, t) ∈ rows -> t = sum (amounts_of c es xs)).
  { intros c t Hin. apply Hmem in Hin.
    rewrite <- (sums_get_elem sums (PyStr c) t Hnd Hin).
    unfold sums. rewrite tally_get. reflexivity. }
  assert (Hcat : forall c, c ∈ rows.*1 <-> c ∈ category <$> es).
  { intros c. split.
    - intros Hin. apply list_elem_of_fmap in Hin as ([c' t] & -> & Hin).
      apply Hmem in Hin.
      destruct (proj1 (Hkeys (PyStr c') Hx)) as (c0 & Heq & Hc0).
      + apply list_elem_of_fmap. exists (PyStr c', t). auto.
      + injection Heq as ->. exact Hc0.
    - intros Hc.
      assert (Hk : PyStr c ∈ sums.*1) by (apply (Hkeys _ Hx); exists c; auto).
      apply list_elem_of_fmap in Hk as ([k t] & Heq & Hin). cbn [fst] in Heq. subst k.
      apply Hmem in Hin. apply list_elem_of_fmap. exists (c, t). auto. }
  exists rows. repeat split.
  - exact Hrun.
  - apply (NoDup_fmap_1 PyStr).
    replace (PyStr <$> rows.*1) with (sorted_desc sums).*1.
    + rewrite Hperm. exact Hnd.
    + rewrite Hrows, <- !list_fmap_compose. reflexivity.
  - apply Hcat.
  - apply Hcat.
  - exact Htot.
  - apply sorted_rows.
    + fold g. rewrite <- Hrows. apply sorted_desc_sorted.
    + apply Forall_forall. intros [c t] Hin. cbn [snd].
      rewrite (Htot c t Hin).
      assert (Hc : c ∈ category <$> es).
      { apply Hcat. apply list_elem_of_fmap. exists (c, t). auto. }
      exact (proj1 (Forall_forall _ _) Hnan c Hc).
Qed.

Lemma category_summary_totals_witness :
  let es := [Expense "2025-09-01" "Coffee" "food" "3.50";
             Expense "2025-09-15" "Rent" "rent" "1200.00";
             Expense "2025-09-16" "Lunch" "food" "12.25"] in
  let w := World (Some (table es)) "" [] "2025-09-20" in
  exists rows : list (string * spec_float),
    main ["summary"] w = (Return tt, set_stdout (summary_report rows) w)
    /\ NoDup rows.*1
    /\ (forall c, c ∈ rows.*1 <-> c ∈ ["food"; "rent"; "food"])
    /\ (forall c t, (c, t) ∈ rows ->
          t = sum (amounts_of c es [S754_finite false 7881299347898368 (-51);
                                    S754_finite false 5277655813324800 (-42);
                                    S754_finite false 6896136929411072 (-49)]))
    /\ Sorted (fun a b => SFleb b.2 a.2 = true) rows.
Proof.
  intros es w.
  exact (category_summary_totals w es
           [S754_finite false 7881299347898368 (-51);
            S754_finite false 5277655813324800 (-42);
            S754_finite false 6896136929411072 (-49)]
           eq_refl ltac:(repeat constructor) ltac:(repeat constructor)).
Defined.

(** ** The program reads what it wrote *)










(** ** What is written reads back as the rounded amount *)










(** ** Adding, reading back and deleting *)






(** X14.  Positions shift when a record goes: deleting position [k]
    twice in a row removes the record that stood at [k] and then the one
    that stood at [k + 1], and leaves the others in their order. *)
Theorem delete_twice_removes_two
    (w : world) (before after : list expense) (e1 e2 : expense) :
  file w = Some (table (before ++ e1 :: e2 :: after)) ->
  let k := Z.of_nat (length before) + 1 in
  let w1 := (delete_expense k w).2 in
  (delete_expense k w).1 = Return tt
  /\ (delete_expense k w1).1 = Return tt
  /\ file (delete_expense k w1).2 = Some (table (before ++ after))
  /\ stdout (delete_expense k w1).2
     = (stdout w +:+
        (" Deleted #" +:+ PyInt.str k +:+ ": " +:+ date e1 +:+ " | "
         +:+ description e1 +:+ " | " +:+ category e1 +:+ " | $" +:+ amount e1)
        +:+ newline)
       +:+ (" Deleted #" +:+ PyInt.str k +:+ ": " +:+ date e2 +:+ " | "
            +:+ description e2 +:+ " | " +:+ category e2 +:+ " | $" +:+ amount e2)
       +:+ newline.
Proof.
  intros Hf k w1.
  pose proof (delete_expense_middle w before (e2 :: after) e1 Hf) as H1.
  cbv zeta in H1. fold k in H1.
  assert (Hf1 : file w1 = Some (table (before ++ e2 :: after))).
  { unfold w1. rewrite H1. reflexivity. }
  pose proof (delete_expense_middle w1 before after e2 Hf1) as H2.
  cbv zeta in H2. fold k in H2.
  rewrite H2. split; [rewrite H1; reflexivity |].
  split; [reflexivity |]. split; [reflexivity |].
  cbn [snd stdout]. unfold w1. rewrite H1. reflexivity.
Qed.

Lemma delete_twice_removes_two_witness :
  let es := [Expense "2025-09-01" "Coffee" "food" "3.50";
             Expense "2025-09-15" "Rent" "rent" "1200.00";
             Expense "2025-09-16" "Bus" "transport" "2.40"] in
  let w := World (Some (table es)) "" [] "2025-09-20" in
  file (delete_expense 1 (delete_expense 1 w).2).2
  = Some (table [Expense "2025-09-16" "Bus" "transport" "2.40"]).
Proof.
  intros es w.
  exact (proj1 (proj2 (proj2
           (delete_twice_removes_two w []
              [Expense "2025-09-16" "Bus" "transport" "2.40"]
              (Expense "2025-09-01" "Coffee" "food" "3.50")
              (Expense "2025-09-15" "Rent" "rent" "1200.00") eq_refl)))).
Defined.

(** ** Adding at the prompt *)

(** Every command that starts with [add] is the [add] command. *)
Lemma interactive_command_add (cmd : string) :
  Str.startswith cmd "add" = true -> interactive_command cmd = interactive_add.
Proof.
  intros H. unfold interactive_command. rewrite H.
  destruct (String.eqb_spec cmd "help") as [-> | _]; [discriminate H |].
  destruct (String.eqb_spec cmd "?") as [-> | _]; [discriminate H |].
  reflexivity.
Qed.

(** The run of the [add] branch when the date and the amount pass. *)
Lemma interactive_add_stores (w : world) (l1 l2 l3 l4 : string) (rest : list string)
    (x : spec_float) :
  stdin w = l1 :: l2 :: l3 :: l4 :: rest ->
  let d := match Str.strip l1 with "" => today w | s => s end in
  is_Some (Datetime.strptime d) ->
  Float.float (Str.strip l4) = Some x ->
  (interactive_add w).1 = Return tt
  /\ file (interactive_add w).2
     = Some (default [header] (file w)
             ++ [[d; Str.strip l2; Str.lower (Str.strip l3); Float.fmt2 (Float.round2 x)]])
  /\ stdin (interactive_add w).2 = rest.
Proof.
  intros Hin d [ymd Hd] Ha.
  destruct w as [f o i t]. cbn [stdin today file stdout] in *. subst i.
  unfold interactive_add. rewrite bind_run. cbn [get_today today].
  rewrite bind_run. cbn [input stdin set_stdout set_stdin stdout file today].
  fold d. rewrite Hd.
  rewrite bind_run. cbn [input stdin set_stdout set_stdin stdout file today].
  rewrite bind_run. cbn [input stdin set_stdout set_stdin stdout file today].
  rewrite bind_run. cbn [input stdin set_stdout set_stdin stdout file today].
  rewrite Ha. unfold add_expense. rewrite lower_idem.
  destruct f as [rows |]; repeat split; reflexivity.
Qed.

(** X15.  The two modes store the same record.  With four lines of input
    at hand, a command that starts with [add] leaves the file as the
    single-shot [add] does on the same fields stripped of the blanks
    around them, an empty date line standing for today's date; and
    whether it stores a record or not, it does not end the session. *)
Theorem interactive_add_agrees_with_main
    (w : world) (cmd l1 l2 l3 l4 : string) (rest : list string) :
  Str.startswith cmd "add" = true ->
  stdin w = l1 :: l2 :: l3 :: l4 :: rest ->
  let d := match Str.strip l1 with "" => today w | s => s end in
  (interactive_command cmd w).1 = Return tt
  /\ file (interactive_command cmd w).2
     = file (main ["add"; d; Str.strip l2; Str.strip l3; Str.strip l4] w).2.
Proof.
  intros Hcmd Hin d. rewrite (interactive_command_add cmd Hcmd).
  change (main ["add"; d; Str.strip l2; Str.strip l3; Str.strip l4] w)
    with ((date ← valid_date d; amount ← parse_amount (Str.strip l4);
           add_expense date (Str.strip l2) (Str.lower (Str.strip l3)) amount) w).
  change interactive_add with (interactive_command "add").
  destruct (Datetime.strptime d) as [ymd |] eqn:Hd.
  - destruct (Float.float (Str.strip l4)) as [x |] eqn:Ha.
    + change (interactive_command "add") with interactive_add.
      destruct (interactive_add_stores w l1 l2 l3 l4 rest x Hin
                  (ex_intro _ _ Hd) Ha) as (Hr & Hf & _).
      split; [exact Hr |]. rewrite Hf.
      unfold valid_date. fold d. rewrite Hd, bind_run. cbn [mret M_ret].
      unfold parse_amount. rewrite Ha, bind_run. cbn [mret M_ret].
      rewrite add_expense_file, lower_idem. reflexivity.
    + rewrite (interactive_add_bad_amount w l1 l2 l3 l4 rest Hin (ex_intro _ _ Hd) Ha).
      split; [reflexivity |].
      unfold valid_date. fold d. rewrite Hd, bind_run. cbn [mret M_ret].
      unfold parse_amount. rewrite Ha. reflexivity.
  - rewrite (interactive_add_bad_date w l1 _ Hin Hd).
    split; [reflexivity |]. unfold valid_date. fold d. rewrite Hd. reflexivity.
Qed.

Lemma interactive_add_agrees_with_main_witness :
  let w := World None "" [""; " Tea "; " Food"; "2.5 "; "quit"] "2025-09-20" in
  (interactive_command "add it" w).1 = Return tt
  /\ file (interactive_command "add it" w).2
     = Some (table [Expense "2025-09-20" "Tea" "food" "2.50"]).
Proof.
  intros w.
  exact (interactive_add_agrees_with_main w "add it" "" " Tea " " Food" "2.5 " ["quit"]
           eq_refl eq_refl).
Defined.

(** X16.  At the prompt a bad date or a bad amount costs the record but
    not the session.  A date [strptime] refuses is noticed as soon as
    its line is read: the three prompts that would follow are skipped, so
    that the lines meant for them are left in the input and are read as
    commands.  An amount [float] refuses is noticed after all four lines
    are read.  In both cases the file is left as it was. *)
Theorem interactive_add_rejects
    (w : world) (l1 l2 l3 l4 : string) (rest : list string) :
  stdin w = l1 :: l2 :: l3 :: l4 :: rest ->
  let d := match Str.strip l1 with "" => today w | s => s end in
  Datetime.strptime d = None \/ Float.float (Str.strip l4) = None ->
  (interactive_command "add" w).1 = Return tt
  /\ file (interactive_command "add" w).2 = file w
  /\ stdin (interactive_command "add" w).2
     = match Datetime.strptime d with
       | None => l2 :: l3 :: l4 :: rest
       | Some _ => rest
       end.
Proof.
  intros Hin d H. destruct (Datetime.strptime d) as [ymd |] eqn:Hd.
  - destruct H as [H | Ha]; [discriminate H |].
    rewrite (interactive_add_bad_amount w l1 l2 l3 l4 rest Hin (ex_intro _ _ Hd) Ha).
    repeat split; reflexivity.
  - rewrite (interactive_add_bad_date w l1 _ Hin Hd). repeat split; reflexivity.
Qed.

Lemma interactive_add_rejects_witness :
  let w := World None "" ["20 Sept"; "Tea"; "food"; "2.5"] "2025-09-20" in
  (interactive_command "add" w).1 = Return tt
  /\ file (interactive_command "add" w).2 = None
  /\ stdin (interactive_command "add" w).2 = ["Tea"; "food"; "2.5"].
Proof.
  intros w.
  exact (interactive_add_rejects w "20 Sept" "Tea" "food" "2.5" []
           eq_refl (or_introl eq_refl)).
Defined.

(** ** A file with another header *)

Lemma make_dict_lookup_None (fieldnames row : list string) (k : string) :
  k ∉ fieldnames -> Csv.make_dict fieldnames row !! k = None.
Proof.
  intros Hk. unfold Csv.make_dict.
  assert (H1 : forall (l : list (string * string)) (d : gmap string value),
             k ∉ l.*1 -> d !! k = None ->
             foldl (fun d kv => <[kv.1 := PyStr kv.2]> d) d l !! k = None).
  { induction l as [| [a b] l IH]; intros d Hl Hd; [exact Hd |].
    cbn [foldl fst snd]. cbn [fmap list_fmap fst] in Hl.
    apply not_elem_of_cons in Hl as [Hne Hl].
    apply IH; [exact Hl |]. rewrite lookup_insert_ne by congruence. exact Hd. }
  assert (H2 : forall (l : list string) (d : gmap string value),
             k ∉ l -> d !! k = None ->
             foldl (fun d k0 => <[k0 := PyNone]> d) d l !! k = None).
  { induction l as [| a l IH]; intros d Hl Hd; [exact Hd |].
    cbn [foldl]. apply not_elem_of_cons in Hl as [Hne Hl].
    apply IH; [exact Hl |]. rewrite lookup_insert_ne by congruence. exact Hd. }
  apply H2.
  - intros Hin. apply Hk. exact (subseteq_drop _ _ _ Hin).
  - apply H1; [| apply lookup_empty].
    intros Hin. apply Hk. apply list_elem_of_fmap in Hin as ([a b] & -> & Hin).
    exact (elem_of_zip_l _ _ _ _ Hin).
Qed.

Lemma DictReader_lacks (hdr : list string) (rows : list (list string)) (c : string) :
  c ∈ header -> c ∉ hdr -> Forall lacks_column (Csv.DictReader (hdr :: rows)).
Proof.
  intros Hc Hn. cbn [Csv.DictReader]. apply Forall_fmap, Forall_forall. intros row _.
  cbn [compose]. pose proof (make_dict_lookup_None hdr row c Hn) as Hl.
  unfold lacks_column, header in *.
  repeat (apply elem_of_cons in Hc as [-> | Hc]; [tauto |]). inversion Hc.
Qed.

(** The four look-ups of a row end with [KeyError] on a dictionary that
    lacks a column, whatever would follow them. *)
Lemma getitems_lacking {A} (r : gmap string value)
    (k : value -> value -> value -> value -> M A) (w : world) :
  lacks_column r ->
  (date ← getitem r "date";
   description ← getitem r "description";
   category ← getitem r "category";
   amount ← getitem r "amount";
   k date description category amount) w = (Raised KeyError, w).
Proof.
  intros H. unfold getitem. rewrite !bind_run.
  destruct (r !! "date") as [v1 |] eqn:E1; [| reflexivity]. cbn [mret M_ret].
  rewrite !bind_run.
  destruct (r !! "description") as [v2 |] eqn:E2; [| reflexivity]. cbn [mret M_ret].
  rewrite !bind_run.
  destruct (r !! "category") as [v3 |] eqn:E3; [| reflexivity]. cbn [mret M_ret].
  rewrite !bind_run.
  destruct (r !! "amount") as [v4 |] eqn:E4; [| reflexivity].
  destruct H as [H | [H | [H | H]]]; congruence.
Qed.

(** X17.  [delete] empties a file whose header is not the program's.
    When the first row of the file lacks one of the names [date],
    [description], [category], [amount], a [delete] with an index in
    range ends with [KeyError], and by then the file has been rewritten
    as the program's header alone: every record is lost. *)
Theorem delete_on_foreign_header
    (w : world) (hdr : list string) (rows : list (list string)) (c : string) (k : Z) :
  file w = Some (hdr :: rows) ->
  c ∈ header -> c ∉ hdr ->
  1 <= k <= Z.of_nat (length (Csv.DictReader (hdr :: rows))) ->
  delete_expense k w = (Raised KeyError, set_file (Some [header]) w).
Proof.
  intros Hf Hc Hn Hk. pose proof (DictReader_lacks hdr rows c Hc Hn) as Hl.
  unfold delete_expense.
  rewrite (bind_return _ _ _ _ _ (ensure_csv_present _ _ Hf)).
  rewrite (bind_return _ _ _ _ _ (read_rows_present _ _ Hf)).
  set (ds := Csv.DictReader (hdr :: rows)) in *.
  assert (Hc' : (k <? 1) || (Z.of_nat (length ds) <? k) = false).
  { apply orb_false_iff. split; apply Z.ltb_ge; lia. }
  rewrite Hc'. unfold pop.
  destruct (lookup_lt_is_Some_2 ds (Z.to_nat (k - 1)) ltac:(lia)) as [removed Hr].
  rewrite Hr. cbn [mbind option_bind].
  assert (Hrem : lacks_column removed).
  { exact (proj1 (Forall_forall _ _) Hl removed (list_elem_of_lookup_2 _ _ _ Hr)). }
  pose proof (Forall_delete _ _ (Z.to_nat (k - 1)) Hl) as Hrest.
  rewrite bind_run. cbn [open_w]. rewrite bind_run. unfold writerow at 1.
  cbn [set_file file stdout stdin today default app].
  rewrite bind_run.
  destruct (delete (Z.to_nat (k - 1)) ds) as [| r rest].
  - cbn [for_ mret M_ret]. rewrite (getitems_lacking removed _ _ Hrem).
    destruct w as [f o i t]. reflexivity.
  - apply Forall_cons in Hrest as [Hr0 _].
    cbn [for_]. rewrite bind_run, (getitems_lacking r _ _ Hr0).
    destruct w as [f o i t]. reflexivity.
Qed.

Lemma delete_on_foreign_header_witness :
  let rows := [["Date"; "Description"; "Category"; "Amount"];
               ["2025-09-01"; "Coffee"; "food"; "3.50"];
               ["2025-09-15"; "Rent"; "rent"; "1200.00"]] in
  let w := World (Some rows) "" [] "2025-09-20" in
  delete_expense 2 w = (Raised KeyError, World (Some [header]) "" [] "2025-09-20").
Proof.
  intros rows w.
  refine (delete_on_foreign_header w ["Date"; "Description"; "Category"; "Amount"]
            (tail rows) "date" 2 eq_refl _ _ _).
  - apply elem_of_cons. left. reflexivity.
  - intros H. repeat (apply elem_of_cons in H as [H | H]; [discriminate H |]).
    inversion H.
  - cbn. lia.
Defined.

(** ** Counts that are digits but no numbers *)

(** X18.  The guard [isdigit()] lets through what [int()] refuses.  For
    a text that [isdigit()] accepts and [int()] does not read, such as a
    superscript two, [list] with that count ends with [ValueError] in
    both modes, and so does [delete] at the prompt, where the same guard
    stands before [int()]; nothing is printed and the file is left as it
    was. *)
Theorem count_of_digits_int_refuses (w : world) (s : string) :
  Str.isdigit s = true -> PyInt.int s = None ->
  main ["list"; s] w = (Raised ValueError, w)
  /\ (forall cmd c0, Str.startswith cmd "list" = true -> Str.split cmd = [c0; s] ->
        interactive_command cmd w = (Raised ValueError, w))
  /\ (forall cmd c0, Str.startswith cmd "delete" = true -> Str.split cmd = [c0; s] ->
        interactive_command cmd w = (Raised ValueError, w)).
Proof.
  intros Hd Hi. split; [| split].
  - change (main ["list"; s] w) with ((limit ← list_limit ["list"; s]; list_expenses limit) w).
    unfold list_limit. rewrite Hd. unfold to_int. rewrite Hi. reflexivity.
  - intros cmd c0 Hcmd Hsplit. destruct cmd as [| c r]; [discriminate Hcmd |].
    cbn [Str.startswith] in Hcmd.
    destruct (Ascii.eqb_spec "l" c) as [<- | _]; [| discriminate Hcmd].
    unfold interactive_command. rewrite Hsplit.
    cbn [String.eqb Ascii.eqb Bool.eqb orb Str.startswith]. rewrite Hcmd.
    unfold list_limit. rewrite Hd. unfold to_int. rewrite Hi. reflexivity.
  - intros cmd c0 Hcmd Hsplit. destruct cmd as [| c r]; [discriminate Hcmd |].
    cbn [Str.startswith] in Hcmd.
    destruct (Ascii.eqb_spec "d" c) as [<- | _]; [| discriminate Hcmd].
    unfold interactive_command. rewrite Hsplit.
    cbn [String.eqb Ascii.eqb Bool.eqb orb Str.startswith]. rewrite Hcmd.
    rewrite Hd. unfold to_int. rewrite Hi. reflexivity.
Qed.

Lemma count_of_digits_int_refuses_witness :
  let two := String (Str.chr 178) "" in
  let w := World (Some (table [Expense "2025-09-01" "Coffee" "food" "3.50"]))
                 "" [] "2025-09-20" in
  main ["list"; two] w = (Raised ValueError, w)
  /\ interactive_command ("list " +:+ two) w = (Raised ValueError, w)
  /\ interactive_command ("delete " +:+ two) w = (Raised ValueError, w).
Proof.
  intros two w.
  pose proof (count_of_digits_int_refuses w two eq_refl eq_refl) as (H1 & H2 & H3).
  split; [exact H1 |]. split.
  - exact (H2 ("list " +:+ two) "list" eq_refl eq_refl).
  - exact (H3 ("delete " +:+ two) "delete" eq_refl eq_refl).
Defined.

(** ** Dates and months of the specified shape *)

Lemma strptime_year_zero (r : string) :
  Datetime.strptime (String "0" (String "0" (String "0" (String "0" r)))) = None.
Proof.
  unfold Datetime.strptime.
  destruct (Datetime.re_Ymd _) as [| [[[ys ms] ds] rest] l] eqn:E; [reflexivity |].
  assert (Hin : (ys, ms, ds, rest)
                ∈ Datetime.re_Ymd (String "0" (String "0" (String "0" (String "0" r)))))
    by (rewrite E; left).
  clear E. unfold Datetime.re_Ymd in Hin.
  rewrite (re_Y_digits "0" "0" "0" "0" r eq_refl eq_refl eq_refl eq_refl) in Hin.
  apply list_elem_of_bind in Hin as ([y r1] & Hin & Hy).
  apply list_elem_of_singleton in Hy. injection Hy as -> ->.
  apply list_elem_of_bind in Hin as ([a1 r2] & Hin & _).
  apply list_elem_of_bind in Hin as ([m r3] & Hin & _).
  apply list_elem_of_bind in Hin as ([a2 r4] & Hin & _).
  apply list_elem_of_bind in Hin as ([d r5] & Hin & _).
  apply list_elem_of_singleton in Hin. injection Hin as -> -> -> ->.
  destruct r5; [| reflexivity].
  change (PyInt.int "0000") with (Some 0). cbn [mbind option_bind].
  destruct (PyInt.int m) as [mv |]; [| reflexivity]. cbn [mbind option_bind].
  destruct (PyInt.int d) as [dv |]; reflexivity.
Qed.

(** X19.  On the dates of the shape the program asks for (four digits, a
    hyphen, a month 01 to 12 in two digits, a hyphen, a day in two
    digits that the month has), [valid_date] refuses the year 0000 and
    nothing else: a date of any other year is returned as it is, without
    output. *)
Theorem valid_date_on_specified_dates (w : world) (s : string) :
  spec_date s = true ->
  valid_date s w
  = if Str.startswith s "0000"
    then (SysExit 1,
          set_stdout (stdout w +:+ " Date must be in YYYY-MM-DD format, e.g., 2025-09-20."
                      +:+ newline) w)
    else (Return s, w).
Proof.
  intros H. unfold valid_date.
  destruct (Str.startswith s "0000") eqn:Hy.
  - destruct (spec_date_shape s H) as (y1 & y2 & y3 & y4 & m1 & m2 & d1 & d2 & ->).
    cbn [Str.startswith] in Hy.
    destruct (Ascii.eqb_spec "0" y1) as [<- | _]; [| discriminate Hy].
    destruct (Ascii.eqb_spec "0" y2) as [<- | _]; [| discriminate Hy].
    destruct (Ascii.eqb_spec "0" y3) as [<- | _]; [| discriminate Hy].
    destruct (Ascii.eqb_spec "0" y4) as [<- | _]; [| discriminate Hy].
    rewrite strptime_year_zero. reflexivity.
  - destruct (spec_date_accepted s H Hy) as [ymd ->]. reflexivity.
Qed.

Lemma valid_date_on_specified_dates_witness :
  let w := World None "" [] "2025-09-20" in
  valid_date "2024-02-29" w = (Return "2024-02-29", w)
  /\ (valid_date "0000-02-29" w).1 = SysExit 1.
Proof.
  intros w. split.
  - exact (valid_date_on_specified_dates w "2024-02-29" eq_refl).
  - exact (f_equal fst (valid_date_on_specified_dates w "0000-02-29" eq_refl)).
Defined.



(** ** Leaving the session *)

(** X21.  A first line that is [quit] or [exit], in any case and with
    blanks around it, ends the session normally: the banner and one
    prompt are printed, the lines after it are left unread, and the file
    is as it was, or holds the header alone if it was missing. *)
Theorem interactive_quits (w : world) (line : string) (rest : list string) :
  stdin w = line :: rest ->
  quits line ->
  main [] w
  = (Return tt,
     World (Some (default [header] (file w)))
           (stdout w +:+
            unlines ["💸 Budget Tracker CLI — Interactive Mode";
                     "Type 'help' for commands. 'quit' to exit." +:+ newline]
            +:+ "> ")
           rest (today w)).
Proof.
  intros Hin Hq.
  assert (Hb : String.eqb (Str.lower (Str.strip line)) "quit"
               || String.eqb (Str.lower (Str.strip line)) "exit" = true).
  { apply orb_true_iff. destruct Hq as [-> | ->]; [left | right]; reflexivity. }
  destruct w as [f o i t]. cbn [stdin] in Hin. subst i.
  change (main [] ?x) with (interactive x). unfold interactive.
  rewrite bind_run.
  assert (He : ensure_csv (World f o (line :: rest) t)
               = (Return tt, World (Some (default [header] f)) o (line :: rest) t))
    by (destruct f; reflexivity).
  rewrite He. rewrite bind_run, print_run, bind_run, print_run.
  unfold interactive_while. cbn [stdin set_stdout stdout file today length].
  cbn [interactive_loop input stdin set_stdout set_stdin stdout file today].
  rewrite Hb. cbn [default file stdout stdin today].
  rewrite !append_assoc. reflexivity.
Qed.

Lemma interactive_quits_witness :
  let w := World None "" ["  Exit "; "add"] "2025-09-20" in
  (main [] w).1 = Return tt
  /\ file (main [] w).2 = Some [header]
  /\ stdin (main [] w).2 = ["add"].
Proof.
  intros w.
  pose proof (interactive_quits w "  Exit " ["add"] eq_refl (or_intror eq_refl)) as H.
  rewrite H. repeat split; reflexivity.
Defined.

(** ** Two decimal places, as long as the amounts are finite *)





(** ** A session that only looks *)

Lemma interactive_loop_looks_only (fuel : nat) (w w' : world) (r : outcome unit) :
  Forall looks_only (stdin w) ->
  interactive_loop fuel w = Some (r, w') -> store_kept w w'.
Proof.
  revert w. induction fuel as [| fuel IH]; intros w Hall H; [discriminate H |].
  cbn [interactive_loop] in H. unfold input in H.
  destruct w as [f o [| line ls] t]; cbn [stdin] in *.
  - injection H as _ <-. left. reflexivity.
  - cbn [set_stdin set_stdout stdout stdin file today] in H.
    apply Forall_cons in Hall as [[Ha Hd] Hls].
    destruct (String.eqb _ "quit" || String.eqb _ "exit").
    + injection H as _ <-. left. reflexivity.
    + set (w1 := World f (o +:+ "> ") ls t) in *.
      change (set_stdin ls (set_stdout (o +:+ "> ") (World f o (line :: ls) t)))
        with w1 in H.
      pose proof (keeps_interactive_query store_kept_refl store_kept_trans
                    store_kept_print store_kept_ensure_csv _ Ha Hd w1) as Hkept.
      pose proof (input_left_interactive_command
                    (Str.lower (Str.strip line)) w1) as Hleft.
      apply (store_kept_trans _ w1); [left; reflexivity |].
      destruct (interactive_command _ w1) as [[[] | c | e] w2].
      * apply (store_kept_trans _ w2); [exact Hkept |].
        apply IH; [| exact H].
        destruct Hleft as [k Hk]. cbn [snd stdin w1] in Hk. rewrite Hk in Hls.
        apply Forall_app in Hls as [_ Hls]. exact Hls.
      * injection H as _ <-. exact Hkept.
      * injection H as _ <-. exact Hkept.
Qed.

(** X23.  A session that only looks changes nothing.  When no line of
    the input holds a command that starts with [add] or with [delete],
    the session, however it ends and whatever else is typed, leaves the
    file as it found it, or as the header alone if there was none. *)
Theorem session_without_add_or_delete (w : world) :
  Forall looks_only (stdin w) ->
  file (main [] w).2 = Some (default [header] (file w)).
Proof.
  intros Hall.
  assert (Hloop : exists w0, stdin w0 = stdin w
                             /\ file w0 = Some (default [header] (file w))
                             /\ main [] w = interactive_while w0).
  { destruct w as [[rows |] o i t]; eexists; (split; [| split; [| reflexivity]]);
      reflexivity. }
  destruct Hloop as (w0 & Hin & Hf & ->). rewrite <- Hin in Hall.
  pose proof (interactive_while_runs w0) as Hrun.
  destruct (interactive_while w0) as [r w'].
  destruct (interactive_loop_looks_only _ w0 w' r Hall Hrun) as [Hk | [Hn _]].
  - cbn [snd]. rewrite Hk. exact Hf.
  - rewrite Hf in Hn. discriminate Hn.
Qed.

Lemma session_without_add_or_delete_witness :
  let rows := table [Expense "2025-09-01" "Coffee" "food" "3.50"] in
  let w := World (Some rows) "" ["list"; " Summary"; "monthly 2025-09"; "bogus"]
                 "2025-09-20" in
  (main [] w).1 = Raised EOFError /\ file (main [] w).2 = Some rows.
Proof.
  intros rows w. split; [reflexivity |].
  apply (session_without_add_or_delete w).
  repeat constructor.
Defined.
